(** * Crypto-Trading-MCP: risk engine and decision engine

    A shallow embedding of the risk calculator
    ([servers/crypto-risk-mcp/main.py]), of the confidence gate of the AI
    signal tool ([servers/crypto-ai-mcp/main.py]) and of the trader's decision
    procedure ([client/crypto_trader.py]).

    Python floats are modelled as exact rationals ([Q]): every comparison,
    branch and arithmetic step of the source is kept, binary rounding error is
    not represented.  The explicit decimal rounding the source performs with
    [round(x, n)] is modelled (round half to even).  Exceptions are values of
    a result type; [try]/[except] blocks are handlers over it. *)

From Stdlib Require Import QArith Qabs Qround Lqa Lia ZArith Bool.
From Stdlib Require Import String Ascii List Permutation.
Import ListNotations.

Local Open Scope Q_scope.
Local Open Scope string_scope.

(** ** Python built-ins on numbers *)

Module Py.

Definition ltb (a b : Q) : bool := negb (Qle_bool b a).
Definition leb (a b : Q) : bool := Qle_bool a b.
Definition gtb (a b : Q) : bool := ltb b a.
Definition geb (a b : Q) : bool := leb b a.

(** [max(a, b)] keeps its first argument unless the second is greater;
    [min(a, b)] keeps its first argument unless the second is smaller. *)
Definition max (a b : Q) : Q := if gtb b a then b else a.
Definition min (a b : Q) : Q := if ltb b a then b else a.

Definition abs (a : Q) : Q := Qabs a.

(** Nearest integer, ties to the even one. *)
Definition round_half_even (q : Q) : Z :=
  let f := Qfloor q in
  match Qcompare (q - inject_Z f) 0.5 with
  | Lt => f
  | Gt => (f + 1)%Z
  | Eq => if Z.even f then f else (f + 1)%Z
  end.

Definition pow10 (n : nat) : Q := inject_Z (10 ^ Z.of_nat n).

(** [round(x, ndigits)] *)
Definition round (x : Q) (ndigits : nat) : Q :=
  inject_Z (round_half_even (x * pow10 ndigits)) / pow10 ndigits.

End Py.

(** ** shared/exceptions.py *)

Inductive exn : Type :=
  | ValidationError (field : string)
  | PositionSizingError (message : string)
  | RiskManagementError (message : string)
  | ZeroDivisionError
  | ValueError
  | KeyError (key : string)
  | PydanticValidationError (field : string)
  | OtherException (message : string).

Inductive result (A : Type) : Type :=
  | Ok (a : A)
  | Raise (e : exn).
Arguments Ok {A} a.
Arguments Raise {A} e.

Definition bind {A B : Type} (m : result A) (k : A -> result B) : result B :=
  match m with
  | Ok a => k a
  | Raise e => Raise e
  end.

Notation "x <- m ;; k" := (bind m (fun x => k))
  (at level 61, m at next level, right associativity).
Notation "m ;;; k" := (bind m (fun _ => k))
  (at level 61, right associativity).

(** Scalar float division: a zero divisor raises. *)
Definition py_div (a b : Q) : result Q :=
  if Qeq_bool b 0 then Raise ZeroDivisionError else Ok (a / b).

Definition validate_numeric_range
    (value : Q) (min_value max_value : option Q) (field_name : string)
  : result unit :=
  match min_value with
  | Some lo => if Py.ltb value lo then Raise (ValidationError field_name) else Ok tt
  | None => Ok tt
  end ;;;
  match max_value with
  | Some hi => if Py.gtb value hi then Raise (ValidationError field_name) else Ok tt
  | None => Ok tt
  end.

(** ** shared/constants.py *)

Module RiskManagement.
Definition MAX_POSITION_SIZE : Q := 0.20.
Definition MAX_PORTFOLIO_RISK : Q := 0.02.
Definition MAX_DRAWDOWN : Q := 0.15.
Definition STOP_LOSS_PERCENT : Q := 0.05.
Definition TAKE_PROFIT_RATIO : Q := 2.0.
Definition MAX_CORRELATION : Q := 0.7.
Definition HIGH_CORRELATION_THRESHOLD : Q := 0.8.
Definition CRITICAL_DRAWDOWN_THRESHOLD : Q := 0.15.
Definition WARNING_DRAWDOWN_THRESHOLD : Q := 0.10.
Definition ELEVATED_DRAWDOWN_THRESHOLD : Q := 0.08.
Definition DEFAULT_WIN_RATE : Q := 0.60.
Definition MAX_KELLY_FRACTION : Q := 0.25.
Definition SIGNIFICANT_DAILY_LOSS : Q := 5000.0.
Definition MODERATE_DAILY_LOSS : Q := 1000.0.
Definition VAR_BREACH_WARNING_THRESHOLD : Z := 2.
Definition DEMO_ACCOUNT_BALANCE : Q := 100000.0.
End RiskManagement.

Module Trading.
Definition DEFAULT_RISK_PER_TRADE : Q := 0.02.
Definition DEFAULT_MIN_CONFIDENCE : Q := 0.7.
Definition RULE_BASED_BUY_THRESHOLD : Q := 0.3.
Definition RULE_BASED_SELL_THRESHOLD : Q := - 0.3.
Definition CONFIDENCE_BOOST : Q := 0.3.
Definition MAX_RULE_CONFIDENCE : Q := 0.8.
Definition TECHNICAL_SIGNAL_WEIGHT : Q := 0.6.
Definition NEWS_SENTIMENT_WEIGHT : Q := 0.5.
Definition SOCIAL_SENTIMENT_WEIGHT : Q := 0.4.
End Trading.

(** ** shared/shared_types.py *)

Record PositionSize : Type := mkPositionSize {
  ps_symbol : string;
  quantity : Q;
  notional_value : Q;
  risk_amount : Q;
  confidence : Q
}.

(** The model's constructor enforces [confidence: Field(..., ge=0, le=1)]. *)
Definition PositionSize_new (symbol : string) (qty notional risk conf : Q)
  : result PositionSize :=
  if Py.ltb conf 0 || Py.gtb conf 1
  then Raise (PydanticValidationError "confidence")
  else Ok (mkPositionSize symbol qty notional risk conf).

(** ** servers/crypto-risk-mcp/main.py: RiskCalculator.calculate_position_size *)

Definition valid_methods : list string := ["fixed_percent"; "kelly"; "volatility"].

Definition in_list (s : string) (l : list string) : bool :=
  existsb (String.eqb s) l.

(** What a sizing method hands to the capping step. *)
Definition sizing_method (account_balance risk_amount price_risk : Q)
    (method : string) : result (Q * Q) :=
  if method =? "fixed_percent" then
    quantity <- py_div risk_amount price_risk ;;
    Ok (quantity, 0.8)
  else if method =? "kelly" then
    let win_rate := RiskManagement.DEFAULT_WIN_RATE in
    let avg_win := price_risk * 2 in
    let avg_loss := price_risk in
    if Py.leb avg_win 0 then
      Raise (PositionSizingError
               "Invalid Kelly calculation: average win must be greater than zero")
    else
      kelly_fraction <- py_div (win_rate * avg_win - (1 - win_rate) * avg_loss) avg_win ;;
      let kelly_fraction :=
        Py.max 0 (Py.min kelly_fraction RiskManagement.MAX_KELLY_FRACTION) in
      let kelly_risk_amount := account_balance * kelly_fraction in
      quantity <- py_div kelly_risk_amount price_risk ;;
      Ok (quantity, 0.9)
  else if method =? "volatility" then
    let volatility_factor := 0.8 in
    inv <- py_div 1 volatility_factor ;;
    let adjusted_risk := risk_amount * inv in
    quantity <- py_div adjusted_risk price_risk ;;
    Ok (quantity, 0.7)
  else
    quantity <- py_div risk_amount price_risk ;;
    Ok (quantity, 0.6).

(** Lines 166-176: notional value and the position cap.  Returns the
    quantity, notional value and confidence before the final rounding. *)
Definition cap_position (account_balance entry_price : Q) (qc : Q * Q)
  : result (Q * Q * Q) :=
  let '(quantity, confidence) := qc in
  let notional_value := quantity * entry_price in
  let max_position_value := account_balance * RiskManagement.MAX_POSITION_SIZE in
  if Py.gtb notional_value max_position_value then
    quantity <- py_div max_position_value entry_price ;;
    Ok (quantity, max_position_value, confidence * 0.8)
  else Ok (quantity, notional_value, confidence).

(** The body of the [try] block. *)
Definition position_size_body
    (account_balance risk_per_trade entry_price stop_loss_price : Q)
    (method : string) : result PositionSize :=
  let risk_amount := account_balance * risk_per_trade in
  let price_risk := Py.abs (entry_price - stop_loss_price) in
  if Py.leb price_risk 0 then
    Raise (PositionSizingError
             "Price risk must be greater than zero (entry price cannot equal stop loss price)")
  else
    qc <- sizing_method account_balance risk_amount price_risk method ;;
    r <- cap_position account_balance entry_price qc ;;
    let '(quantity, notional_value, confidence) := r in
    PositionSize_new "" (Py.round quantity 8) (Py.round notional_value 2)
                     (Py.round risk_amount 2) confidence.

(** [except (PositionSizingError, ValidationError): raise]
    [except Exception as e: raise PositionSizingError(...)] *)
Definition position_size_handler (r : result PositionSize) : result PositionSize :=
  match r with
  | Ok p => Ok p
  | Raise (PositionSizingError m) => Raise (PositionSizingError m)
  | Raise (ValidationError f) => Raise (ValidationError f)
  | Raise _ =>
      Raise (PositionSizingError
               "Failed to calculate position size due to unexpected error")
  end.

Definition calculate_position_size
    (account_balance risk_per_trade entry_price stop_loss_price : Q)
    (method : string) : result PositionSize :=
  validate_numeric_range account_balance (Some 0.01) None "account_balance" ;;;
  validate_numeric_range risk_per_trade (Some 0.001) (Some 0.5) "risk_per_trade" ;;;
  validate_numeric_range entry_price (Some 0.01) None "entry_price" ;;;
  validate_numeric_range stop_loss_price (Some 0.01) None "stop_loss_price" ;;;
  if negb (in_list method valid_methods) then Raise (ValidationError "method")
  else
    position_size_handler
      (position_size_body account_balance risk_per_trade entry_price
                          stop_loss_price method).

(** The parts of the computation the claims speak about, before rounding. *)
Definition uncapped_quantity
    (account_balance risk_per_trade entry_price stop_loss_price : Q)
    (method : string) : result (Q * Q) :=
  sizing_method account_balance (account_balance * risk_per_trade)
                (Py.abs (entry_price - stop_loss_price)) method.


(** ** numpy on one-dimensional arrays *)

Module np.

Definition maximum (a b : Q) : Q := if Py.ltb a b then b else a.
Definition minimum (a b : Q) : Q := if Py.ltb b a then b else a.

Fixpoint cumsum_from (acc : Q) (l : list Q) : list Q :=
  match l with
  | [] => []
  | x :: t => (acc + x) :: cumsum_from (acc + x) t
  end.

Definition cumsum (l : list Q) : list Q :=
  match l with
  | [] => []
  | x :: t => x :: cumsum_from x t
  end.

Fixpoint maximum_accumulate_from (acc : Q) (l : list Q) : list Q :=
  match l with
  | [] => []
  | x :: t => maximum acc x :: maximum_accumulate_from (maximum acc x) t
  end.

Definition maximum_accumulate (l : list Q) : list Q :=
  match l with
  | [] => []
  | x :: t => x :: maximum_accumulate_from x t
  end.

(** Element-wise binary operation on arrays of equal length. *)
Fixpoint zip_with (f : Q -> Q -> Q) (a b : list Q) : list Q :=
  match a, b with
  | x :: a', y :: b' => f x y :: zip_with f a' b'
  | _, _ => []
  end.

(** [np.min] and [np.max] raise on an empty array. *)
Definition min (l : list Q) : result Q :=
  match l with
  | [] => Raise ValueError
  | x :: t => Ok (fold_left minimum t x)
  end.

Definition max (l : list Q) : result Q :=
  match l with
  | [] => Raise ValueError
  | x :: t => Ok (fold_left maximum t x)
  end.

Definition sum (l : list Q) : Q := fold_left Qplus l 0.

Definition mean (l : list Q) : Q := sum l / inject_Z (Z.of_nat (length l)).

End np.

(** ** RiskCalculator.calculate_max_drawdown *)

Definition drawdowns (pnl_history : list Q) : list Q :=
  let cumulative_pnl := np.cumsum pnl_history in
  let running_max := np.maximum_accumulate cumulative_pnl in
  np.zip_with Qdiv
    (np.zip_with Qminus cumulative_pnl running_max)
    (map (fun m => np.maximum m 1) running_max).

Definition max_drawdown_body (pnl_history : list Q) : result Q :=
  match pnl_history with
  | [] => Ok 0.0
  | _ =>
      if (length pnl_history <? 2)%nat then Ok 0.0
      else
        m <- np.min (drawdowns pnl_history) ;;
        Ok (Py.abs m)
  end.

(** [except Exception as e: raise RiskManagementError(...)] *)
Definition risk_handler {A : Type} (message : string) (r : result A) : result A :=
  match r with
  | Ok a => Ok a
  | Raise _ => Raise (RiskManagementError message)
  end.

Definition calculate_max_drawdown (pnl_history : list Q) : result Q :=
  risk_handler "Failed to calculate maximum drawdown"
    (max_drawdown_body pnl_history).

(** ** RiskCalculator.assess_correlation_risk *)

Record PortfolioPosition : Type := mkPortfolioPosition {
  symbol : string;
  pos_quantity : Q;
  entry_price : Q;
  current_price : Q;
  market_value : Q;
  unrealized_pnl : Q;
  unrealized_pnl_percent : Q;
  weight : Q
}.

(** [sub in s] *)
Fixpoint contains (sub s : string) : bool :=
  if String.prefix sub s then true
  else match s with
       | EmptyString => false
       | String _ s' => contains sub s'
       end.

(** [s.endswith(suffix)] *)
Definition endswith (s suffix : string) : bool :=
  let n := String.length s in
  let m := String.length suffix in
  if (m <=? n)%nat then String.eqb (String.substring (n - m) m s) suffix
  else false.

Definition pair_correlation (symbol1 symbol2 : string) : Q :=
  if contains "BTC" symbol1 && contains "BTC" symbol2 then 0.95
  else if (contains "BTC" symbol1 || contains "ETH" symbol1)
          && (contains "BTC" symbol2 || contains "ETH" symbol2) then 0.85
  else if endswith symbol1 "USDT" && endswith symbol2 "USDT" then 0.70
  else 0.60.

(** The two nested loops: every [i < j], in that order. *)
Fixpoint pair_correlations (positions : list PortfolioPosition) : list Q :=
  match positions with
  | [] => []
  | p :: rest =>
      (map (fun q => pair_correlation (symbol p) (symbol q)) rest
       ++ pair_correlations rest)%list
  end.

Record CorrelationRisk : Type := mkCorrelationRisk {
  avg_correlation : Q;
  max_correlation : Q;
  risk_level : string
}.

Definition risk_level_of (max_correlation : Q) : string :=
  if Py.gtb max_correlation 0.8 then "high"
  else if Py.gtb max_correlation 0.6 then "medium"
  else "low".

Definition correlation_risk_body (positions : list PortfolioPosition)
  : result CorrelationRisk :=
  if (length positions <? 2)%nat then Ok (mkCorrelationRisk 0.0 0.0 "low")
  else
    let correlations := pair_correlations positions in
    let avg_correlation :=
      match correlations with [] => 0.0 | _ => np.mean correlations end in
    max_correlation <-
      match correlations with [] => Ok 0.0 | _ => np.max correlations end ;;
    Ok (mkCorrelationRisk avg_correlation max_correlation
                          (risk_level_of max_correlation)).

Definition assess_correlation_risk (positions : list PortfolioPosition)
  : result CorrelationRisk :=
  risk_handler "Failed to assess correlation risk"
    (correlation_risk_body positions).

(** ** RiskCalculator.generate_risk_alerts *)

Record RiskMetrics : Type := mkRiskMetrics {
  var_1d : Q;
  max_drawdown : Q;
  sharpe_ratio : option Q;
  portfolio_beta : option Q;
  correlation_risk : string
}.

Record RiskParameters : Type := mkRiskParameters {
  max_position_size : Q;
  max_portfolio_risk : Q;
  rp_max_drawdown : Q;
  max_correlation_param : Q;
  stop_loss_percent : Q;
  take_profit_ratio : Q
}.

(** [RiskParameters()] *)
Definition default_RiskParameters : RiskParameters :=
  mkRiskParameters RiskManagement.MAX_POSITION_SIZE
                   RiskManagement.MAX_PORTFOLIO_RISK
                   RiskManagement.MAX_DRAWDOWN
                   RiskManagement.MAX_CORRELATION
                   RiskManagement.STOP_LOSS_PERCENT
                   RiskManagement.TAKE_PROFIT_RATIO.

(** The formatted [message] and the [timestamp] of an alert are left out. *)
Record RiskAlert : Type := mkRiskAlert {
  level : string;
  metric : string;
  current_value : Q;
  threshold : Q
}.

Definition var_alert (m : RiskMetrics) (p : RiskParameters) : list RiskAlert :=
  if Py.gtb (var_1d m) (max_portfolio_risk p * RiskManagement.DEMO_ACCOUNT_BALANCE)
  then [mkRiskAlert "warning" "var_1d" (var_1d m)
          (max_portfolio_risk p * RiskManagement.DEMO_ACCOUNT_BALANCE)]
  else [].

Definition drawdown_alert (m : RiskMetrics) (p : RiskParameters) : list RiskAlert :=
  if Py.gtb (max_drawdown m) (rp_max_drawdown p)
  then [mkRiskAlert "critical" "max_drawdown" (max_drawdown m) (rp_max_drawdown p)]
  else [].

Definition correlation_alert (m : RiskMetrics) (p : RiskParameters) : list RiskAlert :=
  if correlation_risk m =? "high"
  then [mkRiskAlert "warning" "correlation_risk"
          RiskManagement.HIGH_CORRELATION_THRESHOLD (max_correlation_param p)]
  else [].

Definition sharpe_alert (m : RiskMetrics) : list RiskAlert :=
  match sharpe_ratio m with
  | Some s => if Py.ltb s 0.5 then [mkRiskAlert "warning" "sharpe_ratio" s 0.5] else []
  | None => []
  end.

(** [alerts.append] four times, in source order. *)
Definition generate_risk_alerts (portfolio_metrics : RiskMetrics)
    (risk_params : RiskParameters) : list RiskAlert :=
  (var_alert portfolio_metrics risk_params
   ++ drawdown_alert portfolio_metrics risk_params
   ++ correlation_alert portfolio_metrics risk_params
   ++ sharpe_alert portfolio_metrics)%list.

(** ** Tool [assess_portfolio_risk]: the metrics and the alert list *)

Section AssessPortfolio.

(** VaR and the Sharpe ratio need a square root and a normal quantile; they
    enter as the functions the tool calls. *)
Variable calculate_portfolio_var : list PortfolioPosition -> result Q.
Variable calculate_sharpe_ratio : list Q -> result Q.

Definition portfolio_metrics_of (portfolio_positions : list PortfolioPosition)
    (account_balance : Q) (pnl_history : option (list Q)) : result RiskMetrics :=
  let total_value := account_balance in
  var_1d <- calculate_portfolio_var portfolio_positions ;;
  correlation_analysis <- assess_correlation_risk portfolio_positions ;;
  md_sr <-
    match pnl_history with
    | Some h =>
        if (1 <? length h)%nat then
          md <- calculate_max_drawdown h ;;
          sr <- calculate_sharpe_ratio h ;;
          Ok (md, Some sr)
        else Ok (0.0, None)
    | None => Ok (0.0, None)
    end ;;
  Ok (mkRiskMetrics var_1d (fst md_sr) (snd md_sr) None
                    (risk_level correlation_analysis)).

Definition assess_portfolio_risk_alerts
    (portfolio_positions : list PortfolioPosition)
    (account_balance : Q) (pnl_history : option (list Q))
  : result (list RiskAlert) :=
  portfolio_metrics <-
    portfolio_metrics_of portfolio_positions account_balance pnl_history ;;
  let risk_params := default_RiskParameters in
  Ok (generate_risk_alerts portfolio_metrics risk_params).

End AssessPortfolio.

(** ** Tool [generate_risk_alerts] (scalar inputs) *)

Module Tool.

Record alert : Type := mkAlert { a_level : string; a_metric : string }.

Record response : Type := mkResponse {
  r_risk_level : string;
  r_risk_score : Z;
  r_alerts : list alert;
  r_recommendations : list string
}.

Definition zmin (a b : Z) : Z := if (b <? a)%Z then b else a.

(** The four additions to [risk_score], in source order. *)
Definition breach_drawdown (current_drawdown : Q) : bool :=
  Py.gtb current_drawdown RiskManagement.STOP_LOSS_PERCENT.
Definition breach_daily_pnl (daily_pnl : Q) : bool :=
  Py.ltb daily_pnl (- RiskManagement.MODERATE_DAILY_LOSS).
Definition breach_var (var_breaches : Z) : bool := (0 <? var_breaches)%Z.
Definition breach_correlation (correlation_level : string) : bool :=
  correlation_level =? "high".

Definition raw_risk_score (current_drawdown daily_pnl : Q) (var_breaches : Z)
    (correlation_level : string) : Z :=
  let risk_score := 0%Z in
  let risk_score :=
    if breach_drawdown current_drawdown then (risk_score + 30)%Z else risk_score in
  let risk_score :=
    if breach_daily_pnl daily_pnl then (risk_score + 20)%Z else risk_score in
  let risk_score :=
    if breach_var var_breaches then (risk_score + 15)%Z else risk_score in
  let risk_score :=
    if breach_correlation correlation_level then (risk_score + 20)%Z else risk_score in
  risk_score.

Definition drawdown_alerts (current_drawdown : Q) : list alert :=
  if Py.gtb current_drawdown RiskManagement.CRITICAL_DRAWDOWN_THRESHOLD
  then [mkAlert "critical" "drawdown"]
  else if Py.gtb current_drawdown RiskManagement.WARNING_DRAWDOWN_THRESHOLD
  then [mkAlert "warning" "drawdown"]
  else [].

Definition generate_risk_alerts (current_drawdown daily_pnl : Q)
    (var_breaches : Z) (correlation_level : string) : response :=
  let alerts :=
    (drawdown_alerts current_drawdown
     ++ (if Py.ltb daily_pnl (- RiskManagement.SIGNIFICANT_DAILY_LOSS)
         then [mkAlert "warning" "daily_pnl"] else [])
     ++ (if (RiskManagement.VAR_BREACH_WARNING_THRESHOLD <? var_breaches)%Z
         then [mkAlert "warning" "var_breaches"] else [])
     ++ (if correlation_level =? "high"
         then [mkAlert "warning" "correlation"] else []))%list in
  let recommendations :=
    ((if Py.gtb current_drawdown RiskManagement.ELEVATED_DRAWDOWN_THRESHOLD
      then ["Reduce position sizes by 25-50%"; "Tighten stop-loss levels"] else [])
     ++ (if correlation_level =? "high"
         then ["Add uncorrelated assets to portfolio";
               "Consider market-neutral strategies"] else [])
     ++ (if (1 <? var_breaches)%Z
         then ["Recalibrate risk model parameters";
               "Review historical volatility assumptions"] else []))%list in
  let risk_score :=
    raw_risk_score current_drawdown daily_pnl var_breaches correlation_level in
  let risk_level :=
    if (risk_score <? 25)%Z then "low"
    else if (risk_score <? 60)%Z then "medium" else "high" in
  mkResponse risk_level (zmin 100 risk_score) alerts recommendations.

(** How many of the four score conditions hold. *)
Definition breaches (current_drawdown daily_pnl : Q) (var_breaches : Z)
    (correlation_level : string) : nat :=
  ((if breach_drawdown current_drawdown then 1 else 0)
   + (if breach_daily_pnl daily_pnl then 1 else 0)
   + (if breach_var var_breaches then 1 else 0)
   + (if breach_correlation correlation_level then 1 else 0))%nat.

End Tool.

(** ** Tool [optimize_kelly_criterion] *)



Section Kelly.

(** Float exponentiation [x ** y]: not a rational function, and it raises
    [OverflowError] on large results. *)
Variable float_pow : Q -> Q -> result Q.



End Kelly.

(** ** servers/crypto-ai-mcp/main.py: the confidence gate of
       [generate_trading_signal] *)

Record signal : Type := mkSignal {
  action : option string;
  sig_confidence : option Q;
  target_price : option Q;
  sig_stop_loss : option Q
}.

Record ai_result : Type := mkAiResult {
  ai_success : bool;
  ai_signal : option signal;
  ai_reasoning : option string
}.

(** What [analyzer.synthesize_analysis] hands back (an [AIAnalysis] with its
    [prediction] dictionary); the text generation behind it is external. *)
Record AIAnalysis : Type := mkAIAnalysis {
  an_success : bool;
  an_confidence : Q;
  an_reasoning : string;
  pred_recommendation : option string;
  pred_reasoning : option string;
  pred_target_price : option Q;
  pred_stop_loss : option Q
}.

Definition tolerance_threshold (risk_tolerance : string) : Q :=
  if risk_tolerance =? "low" then 0.8
  else if risk_tolerance =? "high" then 0.5
  else 0.7.

Definition adjusted_confidence (base_confidence : Q) (risk_tolerance : string) : Q :=
  if risk_tolerance =? "low" then base_confidence * 0.8
  else if risk_tolerance =? "high" then base_confidence * 1.2
  else base_confidence.

Definition option_default {A : Type} (d : A) (o : option A) : A :=
  match o with Some a => a | None => d end.

Definition generate_trading_signal (synthesized : result AIAnalysis)
    (risk_tolerance : string) : ai_result :=
  match synthesized with
  | Raise _ => mkAiResult false None None
  | Ok analysis =>
      if negb (an_success analysis) then mkAiResult false None None
      else
        let base_confidence := an_confidence analysis in
        let min_confidence := tolerance_threshold risk_tolerance in
        let adjusted := adjusted_confidence base_confidence risk_tolerance in
        let recommendation := option_default "hold" (pred_recommendation analysis) in
        let '(recommendation, reasoning) :=
          if Py.ltb adjusted min_confidence
          then ("hold", "Signal confidence below threshold for risk tolerance")
          else (recommendation,
                option_default (an_reasoning analysis) (pred_reasoning analysis)) in
        mkAiResult true
          (Some (mkSignal (Some recommendation) (Some (Py.min 1.0 adjusted))
                          (pred_target_price analysis) (pred_stop_loss analysis)))
          (Some reasoning)
  end.

(** ** client/crypto_trader.py: CryptoTrader.make_trading_decision *)

Record technical : Type := mkTechnical {
  tech_success : bool;
  overall_signal : option string
}.

Record sentiment : Type := mkSentiment {
  sent_success : bool;
  overall_sentiment : option Q
}.

Record analysis : Type := mkAnalysis {
  a_technical : option technical;
  a_news : option sentiment;
  a_social : option sentiment;
  a_market_price : option Q
}.

Record position_result : Type := mkPositionResult {
  p_success : bool;
  p_position_size : option (Q * Q)   (* quantity, risk_amount *)
}.

Record order : Type := mkOrder {
  o_entry_price : Q;
  o_quantity : Q;
  o_stop_loss : Q;
  o_take_profit : option Q;
  o_reasoning : string;
  o_risk_amount : Q
}.

Inductive decision : Type :=
  | Trade (act : string) (conf : Q) (o : option order)
  | NoTrade (reason : string)
  | NoTradeError (e : exn).

Definition should_trade (d : decision) : bool :=
  match d with
  | Trade _ _ _ => true
  | _ => false
  end.

Record trader : Type := mkTrader {
  ai_connected : bool;          (* 'ai' in self.mcp_manager.connections *)
  mode : string;                (* trading_config.get('mode', 'medium') *)
  min_confidence : Q;
  risk_per_trade : Q;
  risk_stop_loss_percent : Q    (* risk_config.get('stop_loss_percent', 0.05) *)
}.

(** A computation that writes log lines. *)
Definition logged (A : Type) : Type := (A * list string)%type.

Definition info {A : Type} (line : string) (m : logged A) : logged A :=
  (fst m, line :: snd m).

Definition LOG_RULE_BASED : string := "Using rule-based trading decision".
Definition LOG_BELOW_THRESHOLD : string := "Signal confidence below threshold".

Definition get_key {A : Type} (key : string) (o : option A) : result A :=
  match o with
  | Some a => Ok a
  | None => Raise (KeyError key)
  end.

Definition rule_scores (an : analysis) : list Q :=
  ((match a_technical an with
    | Some t =>
        if tech_success t then
          let tech_signal := option_default "neutral" (overall_signal t) in
          if tech_signal =? "bullish" then [Trading.TECHNICAL_SIGNAL_WEIGHT]
          else if tech_signal =? "bearish" then [- Trading.TECHNICAL_SIGNAL_WEIGHT]
          else []
        else []
    | None => []
    end)
   ++ (match a_news an with
       | Some n =>
           if sent_success n
           then [option_default 0.0 (overall_sentiment n) * Trading.NEWS_SENTIMENT_WEIGHT]
           else []
       | None => []
       end)
   ++ (match a_social an with
       | Some s =>
           if sent_success s
           then [option_default 0.0 (overall_sentiment s) * Trading.SOCIAL_SENTIMENT_WEIGHT]
           else []
       | None => []
       end))%list.

Definition rule_based_body (self : trader) (an : analysis) : result decision :=
  let scores := rule_scores an in
  match scores with
  | [] => Ok (NoTrade "No valid analysis data")
  | _ =>
      overall_score <- py_div (np.sum scores) (inject_Z (Z.of_nat (length scores))) ;;
      let confidence :=
        Py.min Trading.MAX_RULE_CONFIDENCE
               (Py.abs overall_score + Trading.CONFIDENCE_BOOST) in
      if Py.gtb overall_score Trading.RULE_BASED_BUY_THRESHOLD
         && Py.geb confidence (min_confidence self)
      then Ok (Trade "buy" confidence None)
      else if Py.ltb overall_score Trading.RULE_BASED_SELL_THRESHOLD
              && Py.geb confidence (min_confidence self)
      then Ok (Trade "sell" confidence None)
      else Ok (NoTrade "No clear signal")
  end.

Definition _rule_based_decision (self : trader) (an : analysis) : logged decision :=
  info LOG_RULE_BASED
    (match rule_based_body self an with
     | Ok d => (d, [])
     | Raise e => (NoTradeError e, [])
     end).

Section DecisionEngine.

(** [self.mcp_manager.call_tool('ai', 'generate_trading_signal', ...)] and
    [call_tool('risk', 'calculate_position_size', ...)]: either may raise. *)
Variable call_ai : analysis -> string -> result ai_result.
Variable call_risk : Q -> Q -> Q -> Q -> result position_result.

(** The block guarded by [if ai_result.get('success')]: it always returns. *)
Definition ai_branch (self : trader) (an : analysis) (ai : ai_result)
  : result (logged decision) :=
  sg <- get_key "signal" (ai_signal ai) ;;
  let act := option_default "hold" (action sg) in
  let conf := option_default 0.0 (sig_confidence sg) in
  traded <-
    (if Py.geb conf (min_confidence self) && in_list act ["buy"; "sell"] then
       let account_balance := 10000.0 in
       let entry_price := option_default 0 (a_market_price an) in
       let stop_loss_percent := risk_stop_loss_percent self in
       let stop_loss_price := entry_price * (1 - stop_loss_percent) in
       position <- call_risk account_balance (risk_per_trade self)
                             entry_price stop_loss_price ;;
       if p_success position then
         size <- get_key "position_size" (p_position_size position) ;;
         reasoning <- get_key "analysis" (ai_reasoning ai) ;;
         Ok (Some (Trade act conf
                     (Some (mkOrder entry_price (fst size) stop_loss_price
                                    (target_price sg) reasoning (snd size)))))
       else Ok None
     else Ok None) ;;
  match traded with
  | Some d => Ok (d, [])
  | None => Ok (info LOG_BELOW_THRESHOLD (NoTrade "Confidence below threshold", []))
  end.

Definition decision_body (self : trader) (an : analysis)
  : result (logged decision) :=
  if ai_connected self then
    ai <- call_ai an (mode self) ;;
    if ai_success ai then ai_branch self an ai
    else Ok (_rule_based_decision self an)
  else Ok (_rule_based_decision self an).

Definition make_trading_decision (self : trader) (an : analysis) : logged decision :=
  info "Making trading decision..."
    (match decision_body self an with
     | Ok d => d
     | Raise e => (NoTradeError e, [])
     end).

(** The rule-based fallback was entered iff its first log line was written. *)
Definition rule_based_reached (r : logged decision) : bool :=
  in_list LOG_RULE_BASED (snd r).

End DecisionEngine.

(** ** Vocabulary of the statements *)

(** The four range validations at the head of [calculate_position_size]. *)
Definition valid_ranges (account_balance risk_per_trade entry_price stop_loss_price : Q)
  : Prop :=
  0.01 <= account_balance /\ 0.001 <= risk_per_trade /\ risk_per_trade <= 0.5
  /\ 0.01 <= entry_price /\ 0.01 <= stop_loss_price.

Definition valid_method (method : string) : Prop :=
  method = "fixed_percent" \/ method = "kelly" \/ method = "volatility".

Definition position_cap (account_balance : Q) : Q :=
  account_balance * RiskManagement.MAX_POSITION_SIZE.



(** ** A fixture for the decision engine *)

(** The risk server's tool [calculate_position_size] as the trader sees it:
    a raised error comes back as an unsuccessful response. *)
Definition risk_tool (account_balance risk_per_trade entry_price stop_loss_price : Q)
  : result position_result :=
  match calculate_position_size account_balance risk_per_trade entry_price
                                stop_loss_price "fixed_percent" with
  | Ok p => Ok (mkPositionResult true (Some (quantity p, risk_amount p)))
  | Raise _ => Ok (mkPositionResult false None)
  end.

(** An AI source whose synthesis recommends "buy" with confidence 0.6. *)
Definition timid_ai (_ : analysis) (risk_tolerance : string) : result ai_result :=
  Ok (generate_trading_signal
        (Ok (mkAIAnalysis true 0.6 "synthesis" (Some "buy") None (Some 52000) None))
        risk_tolerance).

(** Bullish technicals with strongly positive news and social sentiment. *)
Definition bullish_analysis : analysis :=
  mkAnalysis (Some (mkTechnical true (Some "bullish")))
             (Some (mkSentiment true (Some 0.9)))
             (Some (mkSentiment true (Some 0.9)))
             (Some 50000).

Definition medium_trader : trader :=
  mkTrader true "medium" Trading.DEFAULT_MIN_CONFIDENCE
           Trading.DEFAULT_RISK_PER_TRADE RiskManagement.STOP_LOSS_PERCENT.

(** ** Tool [assess_portfolio_risk]: portfolio concentration *)

(** [max(position_weights) if position_weights else 0] over the positive
    weights. *)
Definition max_position_weight (portfolio_positions : list PortfolioPosition) : Q :=
  let position_weights :=
    map weight (filter (fun pos => Py.gtb (weight pos) 0) portfolio_positions) in
  match position_weights with
  | [] => 0
  | w :: ws => fold_left Py.max ws w
  end.

Definition concentration_risk (portfolio_positions : list PortfolioPosition) : string :=
  let m := max_position_weight portfolio_positions in
  if Py.gtb m 0.3 then "high" else if Py.gtb m 0.2 then "medium" else "low".

(** ** servers/crypto-ai-mcp/main.py: CryptoAIAnalyzer._fallback_analysis *)




(** ** shared/utils.py *)

Module Utils.

Definition DECIMAL_PLACES : nat := 8.
Definition MAX_HISTOGRAM_VALUES : nat := 1000.   (* SystemConfig *)
Definition DEFAULT_TTL : Q := 300.               (* Cache *)
Definition SECONDS_PER_MINUTE : Q := 60.

(** Nearest integer, ties away from zero ([ROUND_HALF_UP] of [decimal]). *)
Definition round_half_up (q : Q) : Z :=
  let magnitude := Qfloor (Qabs q + 0.5) in
  if Py.ltb q 0 then (- magnitude)%Z else magnitude.

(** [Decimal(str(value)).quantize(Decimal('0.00..0'), ROUND_HALF_UP)]: the
    default context has 28 digits and [quantize] raises
    [decimal.InvalidOperation] when the rounded coefficient needs more. *)
Definition round_decimal (value : Q) (places : nat) : result Q :=
  let coefficient := round_half_up (value * Py.pow10 places) in
  if (10 ^ 28 <=? Z.abs coefficient)%Z
  then Raise (OtherException "decimal.InvalidOperation")
  else Ok (inject_Z coefficient / Py.pow10 places).

Definition percentage_change (old_value new_value : Q) : result Q :=
  if Qeq_bool old_value 0 then Ok 0.0
  else
    d <- py_div (new_value - old_value) old_value ;;
    Ok (d * 100).

(** The position size of the trading utilities: no validation, no cap. *)
Definition calculate_position_size
    (account_balance risk_per_trade entry_price stop_loss_price : Q) : result Q :=
  if Py.leb entry_price 0 || Py.leb stop_loss_price 0 then Ok 0.0
  else
    let risk_amount := account_balance * risk_per_trade in
    let price_risk := Py.abs (entry_price - stop_loss_price) in
    if Py.leb price_risk 0 then Ok 0.0
    else
      position_size <- py_div risk_amount price_risk ;;
      round_decimal position_size 6.

(** [str.lower] on the letters A-Z; no other character lowers to a letter of
    "long". *)
Definition ascii_lower (c : ascii) : ascii :=
  let n := nat_of_ascii c in
  if ((65 <=? n) && (n <=? 90))%nat then ascii_of_nat (n + 32) else c.

Fixpoint lower (s : string) : string :=
  match s with
  | EmptyString => EmptyString
  | String c s' => String (ascii_lower c) (lower s')
  end.

(** Returns [unrealized_pnl] and [unrealized_pnl_percent]. *)
Definition calculate_pnl (entry_price current_price quantity : Q) (side : string)
  : result (Q * Q) :=
  let pnl :=
    if lower side =? "long" then (current_price - entry_price) * quantity
    else (entry_price - current_price) * quantity in
  pnl_percent <-
    (if Py.gtb entry_price 0 then
       d <- py_div pnl (entry_price * quantity) ;;
       Ok (d * 100)
     else Ok 0.0) ;;
  unrealized_pnl <- round_decimal pnl 2 ;;
  unrealized_pnl_percent <- round_decimal pnl_percent 2 ;;
  Ok (unrealized_pnl, unrealized_pnl_percent).

(** *** MetricsCollector.record_histogram *)

(** [self.histograms]: a dictionary from names to lists of values. *)
Definition histograms : Type := string -> option (list Q).

Definition no_histograms : histograms := fun _ => None.

Definition record_histogram (h : histograms) (name : string) (value : Q) : histograms :=
  let current := match h name with Some l => l | None => [] end in
  let appended := (current ++ [value])%list in
  let kept :=
    if (MAX_HISTOGRAM_VALUES <? length appended)%nat
    then skipn (length appended - MAX_HISTOGRAM_VALUES) appended
    else appended in
  fun k => if k =? name then Some kept else h k.

(** *** SimpleCache, with the clock as an argument *)

Section Cache.

Variable V : Type.

Record cached_item : Type := mkCachedItem { item_value : V; expires_at : Q }.

Definition cache : Type := string -> option cached_item.

Definition cache_set (now : Q) (c : cache) (key : string) (value : V)
    (ttl_seconds : Q) : cache :=
  fun k => if k =? key then Some (mkCachedItem value (now + ttl_seconds)) else c k.

Definition cache_delete (c : cache) (key : string) : cache :=
  fun k => if k =? key then None else c k.

(** [get] returns the value and the cache it leaves behind. *)
Definition cache_get (now : Q) (c : cache) (key : string) : option V * cache :=
  match c key with
  | None => (None, c)
  | Some cached =>
      if Py.gtb now (expires_at cached) then (None, cache_delete c key)
      else (Some (item_value cached), c)
  end.

End Cache.

(** *** RateLimiter.acquire, one attempt with the clock as an argument *)

Record rate_limiter : Type := mkRateLimiter {
  max_calls : nat;
  window_seconds : Q;
  calls : list Q
}.

Inductive attempt : Type :=
  | Granted (r : rate_limiter)
  | Sleep (seconds : Q) (r : rate_limiter)      (* then acquire again *)
  | IndexError (r : rate_limiter).              (* [self.calls[0]] on an empty list *)

Definition acquire (r : rate_limiter) (now : Q) : attempt :=
  let kept := filter (fun call_time => Py.ltb (now - call_time) (window_seconds r))
                     (calls r) in
  let r1 := mkRateLimiter (max_calls r) (window_seconds r) kept in
  let grant := Granted (mkRateLimiter (max_calls r) (window_seconds r)
                                      (kept ++ [now])%list) in
  if (max_calls r <=? length kept)%nat then
    match kept with
    | [] => IndexError r1
    | first :: _ =>
        let sleep_time := window_seconds r - (now - first) in
        if Py.gtb sleep_time 0 then Sleep sleep_time r1 else grant
    end
  else grant.

End Utils.

(** ** RiskCalculator.calculate_portfolio_var *)

Module npm.

(** [np.outer] *)
Definition outer (a b : list Q) : list (list Q) :=
  map (fun x => map (fun y => x * y) b) a.

(** [np.full((n, n), off)] followed by [np.fill_diagonal(., diag)] *)
Definition full_diagonal (n : nat) (off diag : Q) : list (list Q) :=
  map (fun i => map (fun j => if (i =? j)%nat then diag else off) (seq 0 n)) (seq 0 n).

(** Element-wise product of two matrices of the same shape. *)
Fixpoint multiply (A B : list (list Q)) : list (list Q) :=
  match A, B with
  | a :: A', b :: B' => np.zip_with Qmult a b :: multiply A' B'
  | _, _ => []
  end.

(** [np.dot] of two vectors, and of a matrix and a vector. *)
Definition dot (a b : list Q) : Q := np.sum (np.zip_with Qmult a b).

Definition dot_matrix (A : list (list Q)) (w : list Q) : list Q :=
  map (fun row => dot row w) A.

End npm.

Definition CRYPTO_VOLATILITY_ASSUMPTION : Q := 0.75.
Definition ASSET_CORRELATION_ASSUMPTION : Q := 0.6.

Definition portfolio_weights (positions : list PortfolioPosition) : list Q :=
  let total_value := np.sum (map market_value positions) in
  map (fun pos => market_value pos / total_value) positions.

(** [np.dot(weights, np.dot(covariance_matrix, weights))] *)
Definition portfolio_variance (positions : list PortfolioPosition) : Q :=
  let weights := portfolio_weights positions in
  let volatilities := repeat CRYPTO_VOLATILITY_ASSUMPTION (length positions) in
  let n_assets := length positions in
  let correlation_matrix :=
    npm.full_diagonal n_assets ASSET_CORRELATION_ASSUMPTION 1.0 in
  let covariance_matrix :=
    npm.multiply (npm.outer volatilities volatilities) correlation_matrix in
  npm.dot weights (npm.dot_matrix covariance_matrix weights).

Section PortfolioVar.

(** [np.sqrt] and [stats.norm.ppf] enter as functions. *)
Variable np_sqrt : Q -> Q.
Variable norm_ppf : Q -> Q.

Definition calculate_portfolio_var (positions : list PortfolioPosition)
    (confidence_level time_horizon_days : Q) : result Q :=
  risk_handler "Failed to calculate portfolio VaR"
    (match positions with
     | [] => Ok 0.0
     | _ =>
         let total_value := np.sum (map market_value positions) in
         if Py.leb total_value 0 then Ok 0.0
         else
           let portfolio_volatility := np_sqrt (portfolio_variance positions) in
           ratio <- py_div time_horizon_days 365 ;;
           let horizon_volatility := portfolio_volatility * np_sqrt ratio in
           let var_multiplier := norm_ppf (1 - confidence_level) in
           Ok (total_value * horizon_volatility * var_multiplier)
     end).

End PortfolioVar.

(** ** Vocabulary of the further properties *)

(** A symbol of the BTC/ETH family, and one quoted in USDT. *)
Definition is_major (s : string) : bool := contains "BTC" s || contains "ETH" s.
Definition is_usdt (s : string) : bool := endswith s "USDT".

Definition count_symbols (f : string -> bool) (positions : list PortfolioPosition) : nat :=
  length (filter (fun p => f (symbol p)) positions).

(** The index pairs [i < j] of the two nested loops, as pairs of positions. *)
Fixpoint position_pairs (positions : list PortfolioPosition)
  : list (PortfolioPosition * PortfolioPosition) :=
  match positions with
  | [] => []
  | p :: rest => (map (fun q => (p, q)) rest ++ position_pairs rest)%list
  end.

(** * Properties *)

(** ** Comparisons, rounding and division *)

Lemma ltb_spec (a b : Q) : reflect (a < b) (Py.ltb a b).
Proof.
  unfold Py.ltb. destruct (Qle_bool b a) eqn:E; simpl; constructor.
  - apply Qle_bool_iff in E. lra.
  - apply Qnot_le_lt. intro H. apply Qle_bool_iff in H. congruence.
Qed.

Lemma leb_spec (a b : Q) : reflect (a <= b) (Py.leb a b).
Proof.
  unfold Py.leb. destruct (Qle_bool a b) eqn:E; constructor.
  - now apply Qle_bool_iff.
  - intro H. apply Qle_bool_iff in H. congruence.
Qed.

Lemma gtb_spec (a b : Q) : reflect (b < a) (Py.gtb a b).
Proof. unfold Py.gtb. apply ltb_spec. Qed.

Lemma geb_spec (a b : Q) : reflect (b <= a) (Py.geb a b).
Proof. unfold Py.geb. apply leb_spec. Qed.

Lemma py_div_ok (a b : Q) : ~ b == 0 -> py_div a b = Ok (a / b).
Proof.
  intro H. unfold py_div. destruct (Qeq_bool b 0) eqn:E; [|reflexivity].
  apply Qeq_bool_iff in E. contradiction.
Qed.

Lemma py_div_inv (a b q : Q) : py_div a b = Ok q -> ~ b == 0 /\ q = a / b.
Proof.
  unfold py_div. destruct (Qeq_bool b 0) eqn:E; [discriminate|].
  intro H. injection H as <-. split; [|reflexivity].
  intro Hb. apply Qeq_bool_iff in Hb. congruence.
Qed.

Lemma pow10_pos (n : nat) : 0 < Py.pow10 n.
Proof.
  unfold Py.pow10. change 0 with (inject_Z 0). rewrite <- Zlt_Qlt.
  apply Z.pow_pos_nonneg; lia.
Qed.






(** ** Position sizing: how a call unfolds *)

Lemma validate_min_iff (v lo : Q) (f : string) :
  validate_numeric_range v (Some lo) None f = Ok tt <-> lo <= v.
Proof.
  unfold validate_numeric_range. destruct (ltb_spec v lo); simpl; split; intro H;
    try reflexivity; try discriminate; lra.
Qed.

Lemma validate_min_max_iff (v lo hi : Q) (f : string) :
  validate_numeric_range v (Some lo) (Some hi) f = Ok tt <-> lo <= v /\ v <= hi.
Proof.
  unfold validate_numeric_range.
  destruct (ltb_spec v lo); simpl; [split; [discriminate | lra]|].
  destruct (gtb_spec v hi); split; intro H; try reflexivity; try discriminate; lra.
Qed.


Lemma valid_method_in_list (m : string) :
  in_list m valid_methods = true <-> valid_method m.
Proof.
  unfold in_list, valid_methods, valid_method. simpl.
  rewrite !orb_true_iff, !String.eqb_eq. intuition discriminate.
Qed.

Lemma calculate_position_size_valid (b r e s : Q) (m : string) :
  valid_ranges b r e s -> valid_method m ->
  calculate_position_size b r e s m
  = position_size_handler (position_size_body b r e s m).
Proof.
  intros (Hb & Hr1 & Hr2 & He & Hs) Hm. unfold calculate_position_size.
  rewrite (proj2 (validate_min_iff b _ _) Hb).
  rewrite (proj2 (validate_min_max_iff r _ _ _) (conj Hr1 Hr2)).
  rewrite (proj2 (validate_min_iff e _ _) He).
  rewrite (proj2 (validate_min_iff s _ _) Hs). cbn [bind].
  now rewrite (proj2 (valid_method_in_list m) Hm).
Qed.


Lemma PositionSize_new_ok (sym : string) (q n r c : Q) :
  0 <= c -> c <= 1 ->
  PositionSize_new sym q n r c = Ok (mkPositionSize sym q n r c).
Proof.
  intros H0 H1. unfold PositionSize_new.
  destruct (ltb_spec c 0); [lra|]. destruct (gtb_spec c 1); [lra|]. reflexivity.
Qed.

(** The three methods on a positive price risk. *)
Lemma sizing_method_valid (b ra pr : Q) (m : string) :
  0 < pr -> valid_method m ->
  exists q c, sizing_method b ra pr m = Ok (q, c)
    /\ (m = "fixed_percent" -> q = ra / pr /\ c = 0.8)
    /\ (m = "volatility" -> q = ra * (1 / 0.8) / pr /\ c = 0.7)
    /\ (m = "kelly" -> c = 0.9)
    /\ (c = 0.8 \/ c = 0.9 \/ c = 0.7).
Proof.
  intros Hpr [-> | [-> | ->]]; unfold sizing_method; simpl.
  - rewrite py_div_ok by lra. simpl. eexists _, _. split; [reflexivity|].
    repeat split; try discriminate; auto.
  - destruct (leb_spec (pr * 2) 0); [lra|].
    rewrite py_div_ok by lra. simpl. rewrite py_div_ok by lra. simpl.
    eexists _, _. split; [reflexivity|]. repeat split; try discriminate; auto.
  - rewrite py_div_ok by lra. simpl.
    eexists _, _. split; [reflexivity|]. repeat split; try discriminate; auto.
Qed.

(** The capping step, case by case. *)
Lemma cap_position_cases (b e q c : Q) :
  0 < e ->
  (q * e <= position_cap b
   /\ cap_position b e (q, c) = Ok (q, q * e, c))
  \/ (position_cap b < q * e
      /\ cap_position b e (q, c) = Ok (position_cap b / e, position_cap b, c * 0.8)).
Proof.
  intro He. unfold cap_position, position_cap.
  destruct (gtb_spec (q * e) (b * RiskManagement.MAX_POSITION_SIZE)).
  - right. split; [assumption|]. rewrite py_div_ok by lra. reflexivity.
  - left. split; [lra | reflexivity].
Qed.

Lemma price_risk_pos (e s : Q) : ~ e == s -> 0 < Py.abs (e - s).
Proof.
  intro H. unfold Py.abs.
  destruct (Qlt_le_dec (e - s) 0).
  - rewrite Qabs_neg by lra. lra.
  - rewrite Qabs_pos by lra.
    destruct (Qlt_le_dec 0 (e - s)); [assumption|]. exfalso. apply H. lra.
Qed.


(** A valid call, step by step. *)
Lemma calculate_position_size_steps (b r e s : Q) (m : string) :
  valid_ranges b r e s -> valid_method m -> ~ e == s ->
  exists q c q' n' c',
    uncapped_quantity b r e s m = Ok (q, c)
    /\ cap_position b e (q, c) = Ok (q', n', c')
    /\ calculate_position_size b r e s m
       = Ok (mkPositionSize "" (Py.round q' 8) (Py.round n' 2)
                            (Py.round (b * r) 2) c').
Proof.
  intros Hv Hm Hes. rewrite calculate_position_size_valid by assumption.
  pose proof (price_risk_pos e s Hes) as Hpr.
  destruct Hv as (Hb & Hr1 & Hr2 & He & Hs).
  destruct (sizing_method_valid b (b * r) _ m Hpr Hm) as (q & c & Hq & _ & _ & _ & Hc).
  assert (He0 : 0 < e) by lra.
  unfold position_size_body, uncapped_quantity.
  destruct (leb_spec (Py.abs (e - s)) 0); [lra|].
  rewrite Hq. cbn [bind].
  destruct (cap_position_cases b e q c He0) as [[_ Hcap] | [_ Hcap]];
    rewrite Hcap; cbn [bind]; eexists _, _, _, _, _;
    (split; [reflexivity|]); (split; [exact Hcap|]);
    rewrite PositionSize_new_ok; try reflexivity;
    destruct Hc as [-> | [-> | ->]]; lra.
Qed.




(** ** Position sizing: the claims *)










(** ** Maximum drawdown *)




Lemma maximum_ge_l (a b : Q) : a <= np.maximum a b.
Proof. unfold np.maximum. destruct (ltb_spec a b); lra. Qed.

Lemma maximum_ge_r (a b : Q) : b <= np.maximum a b.
Proof. unfold np.maximum. destruct (ltb_spec a b); lra. Qed.















(** ** Kelly optimiser *)



Section KellyFacts.

Variable float_pow : Q -> Q -> result Q.




End KellyFacts.



(** ** Tool-level risk score *)

(** C10.  The risk score is a sum of a subset of the increments 30, 20, 15
    and 20: it lies in [0, 85], [min(100, .)] leaves it unchanged, 100 is not
    reached, and the level is high only with at least three of the four
    conditions. *)
Theorem C10_risk_score_range (current_drawdown daily_pnl : Q) (var_breaches : Z)
    (correlation_level : string) :
  let r := Tool.generate_risk_alerts current_drawdown daily_pnl var_breaches
                                     correlation_level in
  let raw := Tool.raw_risk_score current_drawdown daily_pnl var_breaches
                                 correlation_level in
  (0 <= Tool.r_risk_score r <= 85)%Z
  /\ Tool.r_risk_score r = raw
  /\ Tool.r_risk_score r <> 100%Z
  /\ In raw [0; 15; 20; 30; 35; 40; 45; 50; 55; 65; 70; 85]%Z
  /\ (Tool.r_risk_level r = "high" <-> (60 <= raw)%Z)
  /\ (Tool.r_risk_level r = "high" ->
      (3 <= Tool.breaches current_drawdown daily_pnl var_breaches
                          correlation_level)%nat).
Proof.
  unfold Tool.generate_risk_alerts, Tool.raw_risk_score, Tool.breaches.
  cbn [Tool.r_risk_score Tool.r_risk_level].
  destruct (Tool.breach_drawdown current_drawdown),
           (Tool.breach_daily_pnl daily_pnl),
           (Tool.breach_var var_breaches),
           (Tool.breach_correlation correlation_level);
    cbv; intuition (try discriminate; try lia; try congruence).
Qed.

(** ** VaR alert *)

Lemma var_alert_iff (m : RiskMetrics) (p : RiskParameters) (a : RiskAlert) :
  In a (generate_risk_alerts m p) /\ metric a = "var_1d"
  <-> max_portfolio_risk p * RiskManagement.DEMO_ACCOUNT_BALANCE < var_1d m
      /\ a = mkRiskAlert "warning" "var_1d" (var_1d m)
               (max_portfolio_risk p * RiskManagement.DEMO_ACCOUNT_BALANCE).
Proof.
  unfold generate_risk_alerts, var_alert, drawdown_alert, correlation_alert,
    sharpe_alert.
  split.
  - intros [Hin Hm]. rewrite !in_app_iff in Hin.
    destruct Hin as [Hin | [Hin | [Hin | Hin]]].
    + destruct (gtb_spec (var_1d m)
                  (max_portfolio_risk p * RiskManagement.DEMO_ACCOUNT_BALANCE));
        [|contradiction].
      destruct Hin as [<- | []]. auto.
    + destruct (Py.gtb _ _); [|contradiction].
      destruct Hin as [<- | []]. discriminate.
    + destruct (_ =? _); [|contradiction].
      destruct Hin as [<- | []]. discriminate.
    + destruct (sharpe_ratio m) as [sr|]; [|contradiction].
      destruct (Py.ltb _ _); [|contradiction].
      destruct Hin as [<- | []]. discriminate.
  - intros [Hgt ->]. split; [|reflexivity].
    destruct (gtb_spec (var_1d m)
                (max_portfolio_risk p * RiskManagement.DEMO_ACCOUNT_BALANCE));
      [|contradiction].
    now left.
Qed.

Section AssessFacts.

Variable calculate_portfolio_var : list PortfolioPosition -> result Q.
Variable calculate_sharpe_ratio : list Q -> result Q.

(** C9.  The VaR alert of [generate_risk_alerts] is raised exactly when
    [var_1d > max_portfolio_risk * DEMO_ACCOUNT_BALANCE], the constant being
    100000, and carries that product as its threshold; neither the metrics
    nor the parameters hold an account balance, and the alert list of
    [assess_portfolio_risk] is the same for any two account balances. *)
Theorem C9_var_alert_demo_balance (m : RiskMetrics) (p : RiskParameters) :
  RiskManagement.DEMO_ACCOUNT_BALANCE = 100000.0
  /\ (forall a, In a (generate_risk_alerts m p) /\ metric a = "var_1d"
        <-> max_portfolio_risk p * 100000.0 < var_1d m
            /\ a = mkRiskAlert "warning" "var_1d" (var_1d m)
                     (max_portfolio_risk p * 100000.0))
  /\ (forall positions pnl_history balance1 balance2,
        assess_portfolio_risk_alerts calculate_portfolio_var calculate_sharpe_ratio
                                     positions balance1 pnl_history
        = assess_portfolio_risk_alerts calculate_portfolio_var calculate_sharpe_ratio
                                       positions balance2 pnl_history).
Proof.
  split; [reflexivity|]. split.
  - intro a. apply var_alert_iff.
  - reflexivity.
Qed.

End AssessFacts.

(** ** Correlation risk *)

Lemma fold_maximum_in (t : list Q) (x : Q) : In (fold_left np.maximum t x) (x :: t).
Proof.
  revert x. induction t as [|y t IH]; intro x; simpl; [auto|].
  destruct (IH (np.maximum x y)) as [H | H]; [|auto].
  unfold np.maximum in H at 1. destruct (Py.ltb x y); auto.
Qed.

Lemma fold_maximum_ge_init (t : list Q) (x : Q) : x <= fold_left np.maximum t x.
Proof.
  revert x. induction t as [|y t IH]; intro x; simpl; [lra|].
  pose proof (IH (np.maximum x y)). pose proof (maximum_ge_l x y). lra.
Qed.

Lemma fold_maximum_ge (t : list Q) (x c : Q) :
  In c (x :: t) -> c <= fold_left np.maximum t x.
Proof.
  revert x. induction t as [|y t IH]; intros x H.
  - destruct H as [-> | []]. simpl. lra.
  - cbn [fold_left]. destruct H as [-> | [-> | H]].
    + pose proof (fold_maximum_ge_init t (np.maximum c y)).
      pose proof (maximum_ge_l c y). lra.
    + pose proof (fold_maximum_ge_init t (np.maximum x c)).
      pose proof (maximum_ge_r x c). lra.
    + apply IH. now right.
Qed.


Lemma assess_correlation_risk_many (p1 p2 : PortfolioPosition)
    (rest : list PortfolioPosition) :
  exists c cs,
    pair_correlations (p1 :: p2 :: rest) = c :: cs
    /\ assess_correlation_risk (p1 :: p2 :: rest)
       = Ok (mkCorrelationRisk (np.mean (c :: cs)) (fold_left np.maximum cs c)
                               (risk_level_of (fold_left np.maximum cs c))).
Proof.
  unfold assess_correlation_risk, correlation_risk_body.
  change (length (p1 :: p2 :: rest) <? 2)%nat with false. cbv iota.
  destruct (pair_correlations (p1 :: p2 :: rest)) as [|c cs] eqn:E;
    [discriminate|].
  exists c, cs. split; reflexivity.
Qed.



(** ** Decision engine *)

Section DecisionFacts.

Variable call_ai : analysis -> string -> result ai_result.
Variable call_risk : Q -> Q -> Q -> Q -> result position_result.

(** The gate of the AI branch: a low confidence or an action other than buy
    or sell ends in "no trade" without any further call. *)
Lemma ai_branch_gate (self : trader) (an : analysis) (ai : ai_result) (sg : signal) :
  ai_signal ai = Some sg ->
  option_default 0.0 (sig_confidence sg) < min_confidence self
  \/ in_list (option_default "hold" (action sg)) ["buy"; "sell"] = false ->
  ai_branch call_risk self an ai
  = Ok (NoTrade "Confidence below threshold", [LOG_BELOW_THRESHOLD]).
Proof.
  intros Hsg Hgate. unfold ai_branch. rewrite Hsg. cbn [get_key bind].
  destruct Hgate as [Hlow | Hact].
  - destruct (geb_spec (option_default 0.0 (sig_confidence sg)) (min_confidence self));
      [lra|]. reflexivity.
  - rewrite Hact, andb_false_r. reflexivity.
Qed.

(** Whatever the AI branch returns, it did not log the rule-based line. *)
Lemma ai_branch_log (self : trader) (an : analysis) (ai : ai_result)
    (r : logged decision) :
  ai_branch call_risk self an ai = Ok r ->
  in_list LOG_RULE_BASED (snd r) = false.
Proof.
  unfold ai_branch. destruct (ai_signal ai) as [sg|]; [|discriminate].
  cbn [get_key bind].
  destruct (Py.geb _ _ && in_list _ _).
  - destruct (call_risk _ _ _ _) as [pos|]; [|discriminate]. cbn [bind].
    destruct (p_success pos).
    + destruct (p_position_size pos) as [size|]; [|discriminate].
      destruct (ai_reasoning ai) as [reasoning|]; [|discriminate].
      cbn [get_key bind]. intro H. injection H as <-. reflexivity.
    + cbn [bind]. intro H. injection H as <-. reflexivity.
  - cbn [bind]. intro H. injection H as <-. reflexivity.
Qed.

(** The signal tool forces "hold" below the tolerance threshold. *)
Lemma generate_trading_signal_hold (a : AIAnalysis) (tolerance : string) :
  an_success a = true ->
  adjusted_confidence (an_confidence a) tolerance < tolerance_threshold tolerance ->
  exists sg, ai_success (generate_trading_signal (Ok a) tolerance) = true
    /\ ai_signal (generate_trading_signal (Ok a) tolerance) = Some sg
    /\ action sg = Some "hold".
Proof.
  intros Hs Hlow. unfold generate_trading_signal. rewrite Hs. cbn [negb].
  destruct (ltb_spec (adjusted_confidence (an_confidence a) tolerance)
                     (tolerance_threshold tolerance)); [|lra].
  eexists. repeat split.
Qed.

(** C4.  With the AI source connected and answering successfully, a signal
    confidence below the trader's minimum, or a signal the tool turned into
    "hold" because its tolerance-adjusted confidence was below the tolerance
    threshold, gives "no trade" and the rule-based fallback is not entered;
    the fallback is entered only if the AI source is not connected or its
    answer is unsuccessful. *)
Theorem C4_ai_gate_short_circuits (self : trader) (an : analysis) :
  (forall ai sg,
     ai_connected self = true ->
     call_ai an (mode self) = Ok ai ->
     ai_success ai = true ->
     ai_signal ai = Some sg ->
     option_default 0.0 (sig_confidence sg) < min_confidence self ->
     fst (make_trading_decision call_ai call_risk self an) = NoTrade "Confidence below threshold"
     /\ should_trade (fst (make_trading_decision call_ai call_risk self an)) = false
     /\ rule_based_reached (make_trading_decision call_ai call_risk self an) = false)
  /\ (forall a,
        ai_connected self = true ->
        call_ai an (mode self) = Ok (generate_trading_signal (Ok a) (mode self)) ->
        an_success a = true ->
        adjusted_confidence (an_confidence a) (mode self)
        < tolerance_threshold (mode self) ->
        fst (make_trading_decision call_ai call_risk self an) = NoTrade "Confidence below threshold"
        /\ should_trade (fst (make_trading_decision call_ai call_risk self an)) = false
        /\ rule_based_reached (make_trading_decision call_ai call_risk self an) = false)
  /\ (rule_based_reached (make_trading_decision call_ai call_risk self an) = true ->
      ai_connected self = false
      \/ exists ai, call_ai an (mode self) = Ok ai /\ ai_success ai = false).
Proof.
  unfold make_trading_decision, decision_body.
  split; [|split].
  - intros ai sg Hc Hcall Hs Hsg Hlow. rewrite Hc, Hcall. cbn [bind]. rewrite Hs.
    rewrite (ai_branch_gate self an ai sg Hsg (or_introl Hlow)).
    repeat split.
  - intros a Hc Hcall Hs Hlow. rewrite Hc, Hcall. cbn [bind].
    destruct (generate_trading_signal_hold a (mode self) Hs Hlow)
      as (sg & Hok & Hsg & Hact).
    rewrite Hok. rewrite (ai_branch_gate self an _ sg Hsg).
    + repeat split.
    + right. rewrite Hact. reflexivity.
  - destruct (ai_connected self); [|auto].
    destruct (call_ai an (mode self)) as [ai|e]; [|discriminate]. cbn [bind].
    destruct (ai_success ai) eqn:Hs; [|eauto].
    destruct (ai_branch call_risk self an ai) as [r|e] eqn:E; [|discriminate].
    apply ai_branch_log in E. unfold rule_based_reached, info, in_list in *.
    cbn [snd fst existsb].
    change (LOG_RULE_BASED =? "Making trading decision...") with false.
    rewrite E. discriminate.
Qed.

End DecisionFacts.

(** On bullish inputs the rule-based fallback alone would buy, yet the timid
    AI answer ends the decision with "no trade". *)
Lemma C4_ai_gate_short_circuits_witness :
  (exists c, fst (_rule_based_decision medium_trader bullish_analysis)
             = Trade "buy" c None /\ c == 0.77)
  /\ fst (make_trading_decision timid_ai risk_tool medium_trader bullish_analysis)
     = NoTrade "Confidence below threshold"
  /\ rule_based_reached
       (make_trading_decision timid_ai risk_tool medium_trader bullish_analysis)
     = false.
Proof.
  split; [eexists; split; [vm_compute; reflexivity | reflexivity]|].
  destruct (C4_ai_gate_short_circuits timid_ai risk_tool medium_trader bullish_analysis)
    as (_ & Htol & _).
  destruct (Htol (mkAIAnalysis true 0.6 "synthesis" (Some "buy") None (Some 52000) None))
    as (Hd & _ & Hr); try reflexivity.
  split; assumption.
Defined.

Lemma C9_var_alert_demo_balance_witness :
  In (mkRiskAlert "warning" "var_1d" 2500 (0.02 * 100000.0))
     (generate_risk_alerts (mkRiskMetrics 2500 0.05 None None "low")
                           default_RiskParameters).
Proof.
  apply (C9_var_alert_demo_balance (fun _ => Ok 2500) (fun _ => Ok 1)
           (mkRiskMetrics 2500 0.05 None None "low") default_RiskParameters).
  split; reflexivity.
Defined.

Lemma C10_risk_score_range_witness :
  Tool.r_risk_level (Tool.generate_risk_alerts 0.2 (-2000) 1 "low") = "high"
  /\ (3 <= Tool.breaches 0.2 (-2000) 1 "low")%nat.
Proof.
  assert (H : Tool.r_risk_level (Tool.generate_risk_alerts 0.2 (-2000) 1 "low") = "high")
    by reflexivity.
  split; [exact H|].
  apply (C10_risk_score_range 0.2 (-2000) 1 "low"). exact H.
Defined.

(** ** Worked scenarios *)

(** Scenario A of the specification: the fixed-percent quantity 0.1 has a
    notional of 5000, above the cap 2000, so the call returns 0.04, 2000 and
    confidence 0.64. *)
Example scenario_A :
  exists p, calculate_position_size 10000 0.02 50000 48000 "fixed_percent" = Ok p
    /\ quantity p == 0.04 /\ notional_value p == 2000
    /\ risk_amount p == 200 /\ confidence p == 0.64.
Proof. eexists. split; [vm_compute; reflexivity|]. repeat split. Qed.

Example kelly_method_fraction :
  exists p, calculate_position_size 10000 0.02 100 50 "kelly" = Ok p
    /\ uncapped_quantity 10000 0.02 100 50 "kelly" = Ok (10000 * 0.25 / 50, 0.9)
    /\ quantity p == 20 /\ confidence p == 0.72.
Proof.
  eexists. split; [vm_compute; reflexivity|].
  split; [vm_compute; reflexivity|]. split; reflexivity.
Qed.

Example invalid_method_rejected :
  calculate_position_size 10000 0.02 50000 48000 "invalid_method"
  = Raise (ValidationError "method").
Proof. reflexivity. Qed.

Example negative_balance_rejected :
  calculate_position_size (-100) 0.02 50000 48000 "fixed_percent"
  = Raise (ValidationError "account_balance").
Proof. reflexivity. Qed.

Example round_ties_to_even :
  Py.round 0.125 2 == 0.12 /\ Py.round 0.135 2 == 0.14 /\ Py.round 2.5 0 == 2
  /\ Py.round (-0.5) 0 == 0 /\ Py.round (1 # 3) 8 == 0.33333333.
Proof. repeat split. Qed.

Example substring_tests :
  contains "BTC" "WBTCETH" = true /\ contains "BTC" "ETHUSDT" = false
  /\ contains "ETH" "ETHUSDT" = true /\ endswith "ETHUSDT" "USDT" = true
  /\ endswith "USDTBTC" "USDT" = false /\ endswith "DT" "USDT" = false.
Proof. repeat split. Qed.

Example correlation_levels :
  pair_correlation "BTCUSDT" "ETHUSDT" = 0.85
  /\ pair_correlation "SOLUSDT" "ADAUSDT" = 0.70
  /\ pair_correlation "SOLUSD" "ADAUSDT" = 0.60
  /\ risk_level_of 0.70 = "medium" /\ risk_level_of 0.60 = "low".
Proof. repeat split. Qed.

Example drawdown_within_unit :
  exists d, calculate_max_drawdown [100; -20; 30; -60] = Ok d /\ d == 6 # 11.
Proof. eexists. split; [vm_compute; reflexivity | reflexivity]. Qed.

(** Scenario D of the specification: score 0.3367 (about), confidence 0.6367,
    below the minimum 0.7, so no trade despite the direction. *)
Example scenario_D :
  _rule_based_decision (mkTrader false "medium" 0.7 0.02 0.05)
    (mkAnalysis (Some (mkTechnical true (Some "bullish")))
                (Some (mkSentiment true (Some 0.5)))
                (Some (mkSentiment true (Some 0.4))) None)
  = (NoTrade "No clear signal", [LOG_RULE_BASED]).
Proof. reflexivity. Qed.

(** A raised AI call ends in a no-trade error decision, not in the fallback. *)
Example raised_ai_call_is_contained :
  make_trading_decision (fun _ _ => Raise (OtherException "Server ai not connected"))
                        risk_tool medium_trader bullish_analysis
  = (NoTradeError (OtherException "Server ai not connected"),
     ["Making trading decision..."]).
Proof. reflexivity. Qed.

(** An unsuccessful AI answer hands over to the rule-based fallback. *)
Example failed_ai_answer_falls_back :
  rule_based_reached
    (make_trading_decision (fun _ _ => Ok (mkAiResult false None None))
                           risk_tool medium_trader bullish_analysis) = true.
Proof. reflexivity. Qed.

(** * Further properties of the modelled code *)

(** ** Position sizing: methods, cap and errors *)

Lemma kelly_sizing (b ra pr : Q) :
  0 < pr ->
  sizing_method b ra pr "kelly"
  = Ok (b * RiskManagement.MAX_KELLY_FRACTION / pr, 0.9).
Proof.
  intro Hpr. unfold sizing_method. cbn [String.eqb Ascii.eqb Bool.eqb].
  destruct (leb_spec (pr * 2) 0); [lra|].
  rewrite py_div_ok by lra. cbn [bind].
  set (kf := (RiskManagement.DEFAULT_WIN_RATE * (pr * 2)
              - (1 - RiskManagement.DEFAULT_WIN_RATE) * pr) / (pr * 2)).
  assert (Hkf : kf == 0.4) by (unfold kf, RiskManagement.DEFAULT_WIN_RATE; field; lra).
  assert (Hmin : Py.min kf RiskManagement.MAX_KELLY_FRACTION
                 = RiskManagement.MAX_KELLY_FRACTION).
  { unfold Py.min. destruct (ltb_spec RiskManagement.MAX_KELLY_FRACTION kf) as [|Hn];
      [reflexivity|]. exfalso. apply Hn. rewrite Hkf. reflexivity. }
  rewrite Hmin.
  change (Py.max 0 RiskManagement.MAX_KELLY_FRACTION)
    with RiskManagement.MAX_KELLY_FRACTION.
  rewrite py_div_ok by lra. reflexivity.
Qed.

(** The Kelly method never looks at [risk_per_trade]: with the fixed win rate
    and reward ratio its fraction is always the cap 0.25, so quantity,
    notional value and confidence are the same for any two risk settings. *)
Theorem kelly_ignores_risk_per_trade (b r r' e s : Q) :
  valid_ranges b r e s -> valid_ranges b r' e s -> ~ e == s ->
  exists p p',
    calculate_position_size b r e s "kelly" = Ok p
    /\ calculate_position_size b r' e s "kelly" = Ok p'
    /\ uncapped_quantity b r e s "kelly"
       = Ok (b * 0.25 / Py.abs (e - s), 0.9)
    /\ quantity p = quantity p'
    /\ notional_value p = notional_value p'
    /\ confidence p = confidence p'.
Proof.
  intros Hv Hv' Hes.
  assert (Hm : valid_method "kelly") by (right; left; reflexivity).
  pose proof (price_risk_pos e s Hes) as Hpr.
  destruct (calculate_position_size_steps b r e s _ Hv Hm Hes)
    as (q & c & q1 & n1 & c1 & Hq & Hcap & Hcalc).
  destruct (calculate_position_size_steps b r' e s _ Hv' Hm Hes)
    as (q' & c' & q2 & n2 & c2 & Hq' & Hcap' & Hcalc').
  unfold uncapped_quantity in *. rewrite kelly_sizing in Hq, Hq' by assumption.
  injection Hq as <- <-. injection Hq' as <- <-.
  rewrite Hcap in Hcap'. injection Hcap' as <- <- <-.
  eexists _, _. split; [exact Hcalc|]. split; [exact Hcalc'|].
  split; [apply kelly_sizing; assumption|]. repeat split.
Qed.

Lemma kelly_ignores_risk_per_trade_witness :
  exists p p',
    calculate_position_size 10000 0.01 100 20 "kelly" = Ok p
    /\ calculate_position_size 10000 0.5 100 20 "kelly" = Ok p'
    /\ quantity p = quantity p'.
Proof.
  destruct (kelly_ignores_risk_per_trade 10000 0.01 0.5 100 20)
    as (p & p' & H1 & H2 & _ & Hq & _).
  - unfold valid_ranges. repeat split; discriminate.
  - unfold valid_ranges. repeat split; discriminate.
  - discriminate.
  - exists p, p'. auto.
Defined.













(** ** Maximum drawdown: histories without a losing period *)




(** ** Correlation risk: what decides the level *)

Lemma pair_correlation_sym (s1 s2 : string) :
  pair_correlation s1 s2 = pair_correlation s2 s1.
Proof.
  unfold pair_correlation.
  rewrite (andb_comm (contains "BTC" s1)),
          (andb_comm (contains "BTC" s1 || contains "ETH" s1)),
          (andb_comm (endswith s1 "USDT")).
  reflexivity.
Qed.

Lemma pair_correlation_high (s1 s2 : string) :
  0.8 < pair_correlation s1 s2 <-> is_major s1 && is_major s2 = true.
Proof.
  unfold pair_correlation, is_major.
  destruct (contains "BTC" s1), (contains "ETH" s1),
           (contains "BTC" s2), (contains "ETH" s2),
           (endswith s1 "USDT"), (endswith s2 "USDT");
    cbn [andb orb]; split; intro H; try reflexivity; try discriminate.
Qed.

Lemma pair_correlation_not_low (s1 s2 : string) :
  0.6 < pair_correlation s1 s2
  <-> is_major s1 && is_major s2 = true \/ is_usdt s1 && is_usdt s2 = true.
Proof.
  unfold pair_correlation, is_major, is_usdt.
  destruct (contains "BTC" s1), (contains "ETH" s1),
           (contains "BTC" s2), (contains "ETH" s2),
           (endswith s1 "USDT"), (endswith s2 "USDT");
    cbn [andb orb]; split; intro H; auto; try reflexivity;
    try discriminate; destruct H; discriminate.
Qed.

Lemma pair_correlations_pairs (l : list PortfolioPosition) :
  pair_correlations l
  = map (fun pq => pair_correlation (symbol (fst pq)) (symbol (snd pq)))
        (position_pairs l).
Proof.
  induction l as [|p rest IH]; [reflexivity|].
  cbn [pair_correlations position_pairs]. rewrite map_app, map_map, IH. reflexivity.
Qed.

(** Some pair has both symbols in a class iff the class has two members. *)
Lemma pairs_exists_count (f : string -> bool) (l : list PortfolioPosition) :
  (exists pq, In pq (position_pairs l)
              /\ f (symbol (fst pq)) && f (symbol (snd pq)) = true)
  <-> (2 <= count_symbols f l)%nat.
Proof.
  unfold count_symbols. induction l as [|p rest IH].
  - simpl. split; [intros (pq & [] & _) | lia].
  - cbn [position_pairs filter]. split.
    + intros (pq & Hin & Hf). apply in_app_or in Hin as [Hin | Hin].
      * apply in_map_iff in Hin as (q & <- & Hq). cbn [fst snd] in Hf.
        apply andb_true_iff in Hf as [Hp Hfq]. rewrite Hp. cbn [length].
        assert (Hq' : In q (filter (fun p0 => f (symbol p0)) rest))
          by (apply filter_In; auto).
        destruct (filter (fun p0 => f (symbol p0)) rest); [contradiction|].
        cbn [length]. lia.
      * assert (H2 : (2 <= length (filter (fun p0 => f (symbol p0)) rest))%nat)
          by (apply IH; eauto).
        destruct (f (symbol p)); cbn [length]; lia.
    + intro H. destruct (f (symbol p)) eqn:Hp.
      * cbn [length] in H.
        destruct (filter (fun p0 => f (symbol p0)) rest) as [|q qs] eqn:E;
          [cbn in H; lia|].
        assert (Hq : In q (filter (fun p0 => f (symbol p0)) rest))
          by (rewrite E; now left).
        apply filter_In in Hq as [Hq Hfq].
        exists (p, q). split.
        -- apply in_or_app. left. apply in_map_iff. eauto.
        -- cbn [fst snd]. now rewrite Hp, Hfq.
      * apply IH in H as (pq & Hin & Hf). exists pq. split; [|exact Hf].
        apply in_or_app. now right.
Qed.

Lemma risk_level_of_high (m : Q) : risk_level_of m = "high" <-> 0.8 < m.
Proof.
  unfold risk_level_of.
  destruct (gtb_spec m 0.8); [|destruct (gtb_spec m 0.6)];
    split; intro H; try reflexivity; try discriminate; lra.
Qed.

Lemma risk_level_of_low (m : Q) : risk_level_of m = "low" <-> m <= 0.6.
Proof.
  unfold risk_level_of.
  destruct (gtb_spec m 0.8); [|destruct (gtb_spec m 0.6)];
    split; intro H; try reflexivity; try discriminate; lra.
Qed.

(** The largest element exceeds a bound iff some element does. *)
Lemma fold_maximum_gt (t : list Q) (x bound : Q) :
  bound < fold_left np.maximum t x <-> exists c, In c (x :: t) /\ bound < c.
Proof.
  split.
  - intro H. exists (fold_left np.maximum t x). split; [apply fold_maximum_in | exact H].
  - intros (c & Hin & Hc). pose proof (fold_maximum_ge t x c Hin). lra.
Qed.

(** With two or more positions the level is high exactly when at least two
    symbols contain BTC or ETH, and low exactly when fewer than two do and
    fewer than two end in USDT. *)
Theorem correlation_level_by_counts (positions : list PortfolioPosition) :
  (2 <= length positions)%nat ->
  exists r, assess_correlation_risk positions = Ok r
    /\ (risk_level r = "high" <-> (2 <= count_symbols is_major positions)%nat)
    /\ (risk_level r = "low"
        <-> (count_symbols is_major positions < 2)%nat
            /\ (count_symbols is_usdt positions < 2)%nat).
Proof.
  destruct positions as [|p1 [|p2 rest]]; try (simpl; lia). intros _.
  destruct (assess_correlation_risk_many p1 p2 rest) as (c & cs & E & ->).
  eexists. split; [reflexivity|]. cbn [risk_level].
  set (l := p1 :: p2 :: rest) in *.
  assert (Hhigh : 0.8 < fold_left np.maximum cs c
                  <-> (2 <= count_symbols is_major l)%nat).
  { rewrite fold_maximum_gt, <- E, pair_correlations_pairs, <- pairs_exists_count.
    split.
    - intros (v & Hin & Hv). apply in_map_iff in Hin as (pq & <- & Hin).
      exists pq. split; [exact Hin | now apply pair_correlation_high].
    - intros (pq & Hin & Hf). eexists. split; [apply in_map; exact Hin|].
      now apply pair_correlation_high. }
  assert (Hnotlow : 0.6 < fold_left np.maximum cs c
                    <-> (2 <= count_symbols is_major l)%nat
                        \/ (2 <= count_symbols is_usdt l)%nat).
  { rewrite fold_maximum_gt, <- E, pair_correlations_pairs,
      <- !pairs_exists_count.
    split.
    - intros (v & Hin & Hv). apply in_map_iff in Hin as (pq & <- & Hin).
      apply pair_correlation_not_low in Hv as [Hv | Hv]; [left | right]; eauto.
    - intros [(pq & Hin & Hf) | (pq & Hin & Hf)];
        (eexists; split; [apply in_map; exact Hin|]);
        apply pair_correlation_not_low; auto. }
  split.
  - rewrite risk_level_of_high. exact Hhigh.
  - rewrite risk_level_of_low. split.
    + intro Hle. split; apply Nat.nle_gt; intro Hc;
        assert (0.6 < fold_left np.maximum cs c) by (apply Hnotlow; auto); lra.
    + intros [H1 H2].
      destruct (Qlt_le_dec 0.6 (fold_left np.maximum cs c)) as [Hlt|]; [|assumption].
      apply Hnotlow in Hlt. lia.
Qed.

Lemma correlation_level_by_counts_witness :
  exists r,
    assess_correlation_risk
      [mkPortfolioPosition "SOLUSDT" 1 1 1 1 0 0 0.3;
       mkPortfolioPosition "ETHBUSD" 1 1 1 1 0 0 0.3;
       mkPortfolioPosition "DOGEEUR" 1 1 1 1 0 0 0.4] = Ok r
    /\ risk_level r = "low".
Proof.
  edestruct correlation_level_by_counts as (r & Hr & _ & Hlow);
    [|exists r; split; [exact Hr|]; apply Hlow; split; cbv; lia].
  simpl. lia.
Defined.

(** ** Correlation risk: the order of the positions *)

Lemma pair_correlations_perm (l l' : list PortfolioPosition) :
  Permutation l l' -> Permutation (pair_correlations l) (pair_correlations l').
Proof.
  induction 1 as [|x l l' Hp IH|x y l|l l' l'' Hp1 IH1 Hp2 IH2].
  - constructor.
  - cbn [pair_correlations]. apply Permutation_app; [|exact IH].
    apply Permutation_map. exact Hp.
  - cbn [pair_correlations map app].
    rewrite (pair_correlation_sym (symbol y) (symbol x)).
    constructor. rewrite !app_assoc. apply Permutation_app_tail, Permutation_app_comm.
  - etransitivity; eassumption.
Qed.

Lemma fold_Qplus_acc (l : list Q) (a a' : Q) :
  a == a' -> fold_left Qplus l a == fold_left Qplus l a'.
Proof.
  revert a a'. induction l as [|x l IH]; intros a a' H; [exact H|].
  cbn [fold_left]. apply IH. rewrite H. reflexivity.
Qed.

Lemma fold_Qplus_perm (l l' : list Q) :
  Permutation l l' -> forall a, fold_left Qplus l a == fold_left Qplus l' a.
Proof.
  induction 1 as [|x l l' Hp IH|x y l|l l' l'' Hp1 IH1 Hp2 IH2]; intro a.
  - reflexivity.
  - cbn [fold_left]. apply IH.
  - cbn [fold_left]. apply fold_Qplus_acc. ring.
  - rewrite IH1. apply IH2.
Qed.

Lemma mean_perm (l l' : list Q) : Permutation l l' -> np.mean l == np.mean l'.
Proof.
  intro H. unfold np.mean, np.sum.
  rewrite (fold_Qplus_perm l l' H 0), (Permutation_length H). reflexivity.
Qed.

Lemma fold_maximum_perm (c c' : Q) (cs cs' : list Q) :
  Permutation (c :: cs) (c' :: cs') ->
  fold_left np.maximum cs c == fold_left np.maximum cs' c'.
Proof.
  intro H. apply Qle_antisym; apply fold_maximum_ge.
  - apply (Permutation_in _ H), fold_maximum_in.
  - apply (Permutation_in _ (Permutation_sym H)), fold_maximum_in.
Qed.

Lemma risk_level_of_eq (m m' : Q) : m == m' -> risk_level_of m = risk_level_of m'.
Proof.
  intro H. unfold risk_level_of.
  destruct (gtb_spec m 0.8), (gtb_spec m' 0.8); try lra; try reflexivity.
  destruct (gtb_spec m 0.6), (gtb_spec m' 0.6); try lra; reflexivity.
Qed.

(** Reordering the positions changes neither the level nor the average and
    maximum correlation. *)
Theorem correlation_risk_order_independent (l l' : list PortfolioPosition) :
  Permutation l l' ->
  exists r r', assess_correlation_risk l = Ok r
    /\ assess_correlation_risk l' = Ok r'
    /\ risk_level r = risk_level r'
    /\ max_correlation r == max_correlation r'
    /\ avg_correlation r == avg_correlation r'.
Proof.
  intro H. pose proof (Permutation_length H) as Hlen.
  pose proof (pair_correlations_perm l l' H) as Hpairs.
  destruct l as [|p1 [|p2 rest]]; destruct l' as [|q1 [|q2 rest']];
    try discriminate Hlen.
  - eexists _, _. repeat split; reflexivity.
  - eexists _, _. repeat split; reflexivity.
  - destruct (assess_correlation_risk_many p1 p2 rest) as (c & cs & E & ->).
    destruct (assess_correlation_risk_many q1 q2 rest') as (c' & cs' & E' & ->).
    rewrite E, E' in Hpairs.
    eexists _, _. split; [reflexivity|]. split; [reflexivity|].
    cbn [risk_level max_correlation avg_correlation].
    pose proof (fold_maximum_perm c c' cs cs' Hpairs) as Hmax.
    split; [apply risk_level_of_eq; exact Hmax|].
    split; [exact Hmax | apply mean_perm; exact Hpairs].
Qed.

Lemma correlation_risk_order_independent_witness :
  exists r r',
    assess_correlation_risk
      [mkPortfolioPosition "BTCUSDT" 1 1 1 1 0 0 0.5;
       mkPortfolioPosition "SOLUSDT" 1 1 1 1 0 0 0.3;
       mkPortfolioPosition "ETHUSDT" 1 1 1 1 0 0 0.2] = Ok r
    /\ assess_correlation_risk
         [mkPortfolioPosition "ETHUSDT" 1 1 1 1 0 0 0.2;
          mkPortfolioPosition "BTCUSDT" 1 1 1 1 0 0 0.5;
          mkPortfolioPosition "SOLUSDT" 1 1 1 1 0 0 0.3] = Ok r'
    /\ risk_level r = risk_level r'.
Proof.
  edestruct correlation_risk_order_independent as (r & r' & H1 & H2 & H3 & _);
    [|exists r, r'; split; [exact H1|]; split; [exact H2 | exact H3]].
  apply Permutation_sym, (Permutation_cons_app [_; _] []). reflexivity.
Defined.

(** ** Risk alerts of the calculator *)

(** No alert is raised exactly when no rule fires; there are never more than
    four alerts; and an alert is critical exactly when it is the drawdown
    alert. *)
Theorem risk_alerts_rules (m : RiskMetrics) (p : RiskParameters) :
  (generate_risk_alerts m p = []
   <-> var_1d m <= max_portfolio_risk p * RiskManagement.DEMO_ACCOUNT_BALANCE
       /\ max_drawdown m <= rp_max_drawdown p
       /\ correlation_risk m <> "high"
       /\ (forall sr, sharpe_ratio m = Some sr -> 0.5 <= sr))
  /\ (length (generate_risk_alerts m p) <= 4)%nat
  /\ (forall a, In a (generate_risk_alerts m p) ->
        (level a = "critical" <-> metric a = "max_drawdown")
        /\ (level a = "critical" -> rp_max_drawdown p < max_drawdown m)).
Proof.
  unfold generate_risk_alerts, var_alert, drawdown_alert, correlation_alert,
    sharpe_alert.
  destruct (gtb_spec (var_1d m)
              (max_portfolio_risk p * RiskManagement.DEMO_ACCOUNT_BALANCE)) as [Hv|Hv];
  destruct (gtb_spec (max_drawdown m) (rp_max_drawdown p)) as [Hd|Hd];
  destruct (String.eqb_spec (correlation_risk m) "high") as [Hc|Hc];
  destruct (sharpe_ratio m) as [sr|]; try destruct (ltb_spec sr 0.5) as [Hs|Hs];
    cbn [app length]; (split; [|split]); try lia.
  all: try (split; [discriminate | intros (H1 & H2 & H3 & H4);
                    try lra; try contradiction;
                    specialize (H4 _ eq_refl); lra]).
  all: try (split; [intros _; repeat split; try assumption; try lra;
                    intros ? [=]; subst; lra
                   | reflexivity]).
  all: intros a Hin; cbn [In] in Hin;
    repeat (destruct Hin as [<- | Hin]); try contradiction;
    cbn [level metric]; (split; [split; intro; (reflexivity || discriminate)
                                | intro; (assumption || discriminate)]).
Qed.

Lemma risk_alerts_rules_witness :
  generate_risk_alerts (mkRiskMetrics 1500 0.1 (Some 0.8) None "medium")
                       default_RiskParameters = [].
Proof.
  apply (risk_alerts_rules (mkRiskMetrics 1500 0.1 (Some 0.8) None "medium")
                           default_RiskParameters).
  repeat split; try discriminate.
  intros sr [= <-]. discriminate.
Defined.

Section AssessMoreFacts.

Variable calculate_portfolio_var : list PortfolioPosition -> result Q.
Variable calculate_sharpe_ratio : list Q -> result Q.

(** Without a P&L history of at least two points the assessment reports no
    drawdown and no Sharpe ratio, so it can only warn about VaR or
    correlation; with fewer than two positions only about VaR. *)
Theorem assessment_without_history (positions : list PortfolioPosition)
    (balance : Q) (history : option (list Q)) (alerts : list RiskAlert) :
  (forall h, history = Some h -> (length h <= 1)%nat) ->
  assess_portfolio_risk_alerts calculate_portfolio_var calculate_sharpe_ratio
                               positions balance history = Ok alerts ->
  forall a, In a alerts ->
    level a = "warning"
    /\ (metric a = "var_1d"
        \/ (metric a = "correlation_risk" /\ (2 <= length positions)%nat)).
Proof.
  intros Hh. unfold assess_portfolio_risk_alerts, portfolio_metrics_of.
  destruct (calculate_portfolio_var positions) as [v|]; [|discriminate]. cbn [bind].
  destruct (assess_correlation_risk positions) as [cr|] eqn:Ecr; [|discriminate].
  cbn [bind].
  assert (Hmd : match history with
                | Some h => if (1 <? length h)%nat
                            then md <- calculate_max_drawdown h ;;
                                 sr <- calculate_sharpe_ratio h ;; Ok (md, Some sr)
                            else Ok (0.0, None)
                | None => Ok (0.0, None)
                end = Ok (0.0, None)).
  { destruct history as [h|]; [|reflexivity].
    specialize (Hh h eq_refl). destruct (Nat.ltb_spec 1 (length h)); [lia | reflexivity]. }
  rewrite Hmd. cbn [bind fst snd]. intro H. injection H as <-.
  unfold generate_risk_alerts, var_alert, drawdown_alert, correlation_alert,
    sharpe_alert. cbn [var_1d max_drawdown sharpe_ratio correlation_risk].
  change (Py.gtb 0.0 (rp_max_drawdown default_RiskParameters)) with false.
  cbn [app]. intros a Hin. rewrite app_nil_r in Hin.
  apply in_app_or in Hin as [Hin | Hin].
  - destruct (Py.gtb _ _); [|contradiction]. destruct Hin as [<- | []]. auto.
  - destruct (String.eqb_spec (risk_level cr) "high") as [Hhigh|]; [|contradiction].
    destruct Hin as [<- | []]. split; [reflexivity|]. right. split; [reflexivity|].
    destruct positions as [|p1 [|p2 rest]]; cbn [length]; try lia;
      cbv in Ecr; injection Ecr as <-; discriminate.
Qed.

End AssessMoreFacts.

Lemma assessment_without_history_witness :
  level (mkRiskAlert "warning" "var_1d" 2500
           (max_portfolio_risk default_RiskParameters
            * RiskManagement.DEMO_ACCOUNT_BALANCE)) = "warning"
  /\ (metric (mkRiskAlert "warning" "var_1d" 2500
                (max_portfolio_risk default_RiskParameters
                 * RiskManagement.DEMO_ACCOUNT_BALANCE)) = "var_1d"
      \/ (metric (mkRiskAlert "warning" "var_1d" 2500
                    (max_portfolio_risk default_RiskParameters
                     * RiskManagement.DEMO_ACCOUNT_BALANCE)) = "correlation_risk"
          /\ (2 <= @length PortfolioPosition [])%nat)).
Proof.
  apply (assessment_without_history (fun _ => Ok 2500) (fun _ => Ok 1)
           [] 100 (Some [5])
           [mkRiskAlert "warning" "var_1d" 2500
              (max_portfolio_risk default_RiskParameters
               * RiskManagement.DEMO_ACCOUNT_BALANCE)]).
  - intros h [= <-]. simpl. lia.
  - reflexivity.
  - left. reflexivity.
Defined.

(** ** Portfolio concentration *)

Lemma py_max_is_maximum (a b : Q) : Py.max a b = np.maximum a b.
Proof. reflexivity. Qed.

Lemma max_position_weight_gt (l : list PortfolioPosition) (bound : Q) :
  0 <= bound ->
  (bound < max_position_weight l <-> exists p, In p l /\ bound < weight p).
Proof.
  intro Hb. unfold max_position_weight.
  destruct (map weight (filter (fun pos => Py.gtb (weight pos) 0) l))
    as [|w ws] eqn:E.
  - split; [lra|]. intros (p & Hin & Hp).
    assert (Hw : In (weight p) (map weight (filter (fun pos => Py.gtb (weight pos) 0) l))).
    { apply in_map, filter_In. split; [exact Hin|].
      destruct (gtb_spec (weight p) 0); [reflexivity | lra]. }
    rewrite E in Hw. contradiction.
  - change (fold_left Py.max ws w) with (fold_left np.maximum ws w).
    rewrite fold_maximum_gt, <- E. split.
    + intros (c & Hin & Hc). apply in_map_iff in Hin as (p & <- & Hin).
      apply filter_In in Hin as [Hin _]. eauto.
    + intros (p & Hin & Hp). exists (weight p). split; [|exact Hp].
      apply in_map, filter_In. split; [exact Hin|].
      destruct (gtb_spec (weight p) 0); [reflexivity | lra].
Qed.

(** Concentration is high exactly when some position weighs more than 0.3
    and low exactly when none weighs more than 0.2; weights that are zero or
    negative play no part. *)
Theorem concentration_by_largest_weight (l : list PortfolioPosition) :
  (concentration_risk l = "high" <-> exists p, In p l /\ 0.3 < weight p)
  /\ (concentration_risk l = "low" <-> forall p, In p l -> weight p <= 0.2)
  /\ 0 <= max_position_weight l.
Proof.
  pose proof (max_position_weight_gt l 0.3) as H3.
  pose proof (max_position_weight_gt l 0.2) as H2.
  unfold concentration_risk. cbv zeta.
  split; [|split].
  - rewrite <- H3 by discriminate.
    destruct (gtb_spec (max_position_weight l) 0.3);
      [|destruct (gtb_spec (max_position_weight l) 0.2)];
      split; intro H; try reflexivity; try discriminate; lra.
  - assert (Hlow : max_position_weight l <= 0.2
                   <-> forall p, In p l -> weight p <= 0.2).
    { split.
      - intros Hle p Hin. destruct (Qlt_le_dec 0.2 (weight p)) as [Hgt|]; [|assumption].
        assert (0.2 < max_position_weight l) by (apply H2; [discriminate | eauto]). lra.
      - intro Hall. destruct (Qlt_le_dec 0.2 (max_position_weight l)) as [Hgt|];
          [|assumption].
        apply H2 in Hgt as (p & Hin & Hp); [|discriminate].
        specialize (Hall p Hin). lra. }
    rewrite <- Hlow.
    destruct (gtb_spec (max_position_weight l) 0.3);
      [|destruct (gtb_spec (max_position_weight l) 0.2)];
      split; intro H; try reflexivity; try discriminate; lra.
  - unfold max_position_weight.
    destruct (map weight (filter (fun pos => Py.gtb (weight pos) 0) l))
      as [|w ws] eqn:E; [lra|].
    assert (Hw : In w (map weight (filter (fun pos => Py.gtb (weight pos) 0) l)))
      by (rewrite E; now left).
    apply in_map_iff in Hw as (p & <- & Hin). apply filter_In in Hin as [_ Hp].
    destruct (gtb_spec (weight p) 0); [|discriminate].
    change (fold_left Py.max ws (weight p)) with (fold_left np.maximum ws (weight p)).
    pose proof (fold_maximum_ge_init ws (weight p)). lra.
Qed.

Lemma concentration_by_largest_weight_witness :
  concentration_risk
    [mkPortfolioPosition "BTCUSDT" 1 1 1 1 0 0 (-0.9);
     mkPortfolioPosition "ETHUSDT" 1 1 1 1 0 0 0.2] = "low".
Proof.
  apply concentration_by_largest_weight.
  intros p [<- | [<- | []]]; discriminate.
Defined.

(** ** Tool-level alerts: alerts, score and recommendations agree *)

Lemma raw_risk_score_bounds (dd pnl : Q) (vb : Z) (corr : string) :
  (Tool.breach_drawdown dd = true -> (30 <= Tool.raw_risk_score dd pnl vb corr)%Z)
  /\ (Tool.breach_daily_pnl pnl = true -> (20 <= Tool.raw_risk_score dd pnl vb corr)%Z)
  /\ (Tool.breach_var vb = true -> (15 <= Tool.raw_risk_score dd pnl vb corr)%Z)
  /\ (Tool.breach_correlation corr = true
      -> (20 <= Tool.raw_risk_score dd pnl vb corr)%Z).
Proof.
  unfold Tool.raw_risk_score.
  destruct (Tool.breach_drawdown dd), (Tool.breach_daily_pnl pnl),
           (Tool.breach_var vb), (Tool.breach_correlation corr);
    repeat split; intro; try discriminate; lia.
Qed.

(** Every alert is backed by the score and, except for the daily loss, by a
    recommendation: a drawdown alert means a score of at least 30, a daily
    loss or correlation alert at least 20, a VaR-breach alert at least 15.
    So a score of 0 comes with no alert, and a low level with no drawdown
    alert. *)
Theorem tool_alerts_backed_by_score (dd pnl : Q) (vb : Z) (corr : string) :
  let r := Tool.generate_risk_alerts dd pnl vb corr in
  (forall a, In a (Tool.r_alerts r) ->
     (Tool.a_metric a = "drawdown" /\ (30 <= Tool.r_risk_score r)%Z
      /\ In "Reduce position sizes by 25-50%" (Tool.r_recommendations r))
     \/ (Tool.a_metric a = "daily_pnl" /\ (20 <= Tool.r_risk_score r)%Z)
     \/ (Tool.a_metric a = "var_breaches" /\ (15 <= Tool.r_risk_score r)%Z
         /\ In "Recalibrate risk model parameters" (Tool.r_recommendations r))
     \/ (Tool.a_metric a = "correlation" /\ (20 <= Tool.r_risk_score r)%Z
         /\ In "Add uncorrelated assets to portfolio" (Tool.r_recommendations r)))
  /\ (Tool.r_risk_score r = 0%Z -> Tool.r_alerts r = [])
  /\ (Tool.r_risk_level r = "low" ->
      forall a, In a (Tool.r_alerts r) -> Tool.a_metric a <> "drawdown").
Proof.
  cbv zeta.
  assert (Hscore : Tool.r_risk_score (Tool.generate_risk_alerts dd pnl vb corr)
                   = Tool.raw_risk_score dd pnl vb corr).
  { unfold Tool.generate_risk_alerts. cbn [Tool.r_risk_score]. unfold Tool.zmin.
    destruct (Z.ltb_spec (Tool.raw_risk_score dd pnl vb corr) 100); [reflexivity|].
    exfalso. revert H. unfold Tool.raw_risk_score.
    destruct (Tool.breach_drawdown dd), (Tool.breach_daily_pnl pnl),
             (Tool.breach_var vb), (Tool.breach_correlation corr); lia. }
  destruct (raw_risk_score_bounds dd pnl vb corr) as (Bd & Bp & Bv & Bc).
  assert (Hall : forall a,
    In a (Tool.r_alerts (Tool.generate_risk_alerts dd pnl vb corr)) ->
     (Tool.a_metric a = "drawdown" /\ Tool.breach_drawdown dd = true
      /\ In "Reduce position sizes by 25-50%"
            (Tool.r_recommendations (Tool.generate_risk_alerts dd pnl vb corr)))
     \/ (Tool.a_metric a = "daily_pnl" /\ Tool.breach_daily_pnl pnl = true)
     \/ (Tool.a_metric a = "var_breaches" /\ Tool.breach_var vb = true
         /\ In "Recalibrate risk model parameters"
               (Tool.r_recommendations (Tool.generate_risk_alerts dd pnl vb corr)))
     \/ (Tool.a_metric a = "correlation" /\ Tool.breach_correlation corr = true
         /\ In "Add uncorrelated assets to portfolio"
               (Tool.r_recommendations (Tool.generate_risk_alerts dd pnl vb corr)))).
  { intros a Hin. unfold Tool.generate_risk_alerts in *.
    cbn [Tool.r_alerts Tool.r_recommendations] in *.
    rewrite !in_app_iff in Hin. rewrite !in_app_iff.
    unfold Tool.breach_drawdown, Tool.breach_daily_pnl, Tool.breach_var,
      Tool.breach_correlation, Tool.drawdown_alerts,
      RiskManagement.CRITICAL_DRAWDOWN_THRESHOLD,
      RiskManagement.WARNING_DRAWDOWN_THRESHOLD,
      RiskManagement.ELEVATED_DRAWDOWN_THRESHOLD,
      RiskManagement.STOP_LOSS_PERCENT, RiskManagement.SIGNIFICANT_DAILY_LOSS,
      RiskManagement.MODERATE_DAILY_LOSS,
      RiskManagement.VAR_BREACH_WARNING_THRESHOLD in *.
    destruct Hin as [Hin | [Hin | [Hin | Hin]]]; revert Hin.
    - destruct (gtb_spec dd 0.15) as [H15|H15];
        [|destruct (gtb_spec dd 0.10) as [H10|H10]];
        intro Hin; try contradiction; destruct Hin as [<- | []]; left;
        (destruct (gtb_spec dd 0.05); [|lra]);
        (destruct (gtb_spec dd 0.08); [|lra]); cbn [In Tool.a_metric]; auto.
    - destruct (ltb_spec pnl (- (5000.0))) as [H5|H5]; intro Hin; [|contradiction].
      right; left.
      destruct (ltb_spec pnl (- (1000.0))) as [H1|H1]; [|lra].
      destruct Hin as [<- | []]. auto.
    - destruct (Z.ltb_spec 2 vb); intro Hin; [|contradiction].
      right; right; left.
      destruct (Z.ltb_spec 0 vb); [|lia]. destruct (Z.ltb_spec 1 vb); [|lia].
      destruct Hin as [<- | []]. cbn [In Tool.a_metric]. auto 10.
    - destruct (corr =? "high"); intro Hin; [|contradiction].
      right; right; right.
      destruct Hin as [<- | []]. cbn [In Tool.a_metric]. auto 10. }
  split; [|split].
  - intros a Hin. rewrite Hscore.
    destruct (Hall a Hin) as [(? & ? & ?) | [(? & ?) | [(? & ? & ?) | (? & ? & ?)]]];
      auto 10.
  - rewrite Hscore. intro H0.
    destruct (Tool.r_alerts (Tool.generate_risk_alerts dd pnl vb corr)) as [|a l] eqn:E;
      [reflexivity|].
    destruct (Hall a (or_introl eq_refl))
      as [(? & Hb & ?) | [(? & Hb) | [(? & Hb & ?) | (? & Hb & ?)]]];
      [apply Bd in Hb | apply Bp in Hb | apply Bv in Hb | apply Bc in Hb]; lia.
  - intros Hlow a Hin Hm.
    destruct (Hall a Hin) as [(_ & Hb & _) | [(E & _) | [(E & _) | (E & _)]]];
      try (rewrite E in Hm; discriminate).
    apply Bd in Hb. revert Hlow. unfold Tool.generate_risk_alerts.
    cbn [Tool.r_risk_level].
    destruct (Z.ltb_spec (Tool.raw_risk_score dd pnl vb corr) 25); [lia|].
    destruct (Z.ltb_spec (Tool.raw_risk_score dd pnl vb corr) 60); discriminate.
Qed.

Lemma tool_alerts_backed_by_score_witness :
  Tool.r_alerts (Tool.generate_risk_alerts 0.03 (-500) 0 "low") = [].
Proof.
  apply (tool_alerts_backed_by_score 0.03 (-500) 0 "low"). reflexivity.
Defined.

(** The score never decreases when the drawdown or the number of VaR
    breaches grows or the daily P&L falls. *)
Theorem risk_score_monotone (dd dd' pnl pnl' : Q) (vb vb' : Z) (corr : string) :
  dd <= dd' -> pnl' <= pnl -> (vb <= vb')%Z ->
  (Tool.r_risk_score (Tool.generate_risk_alerts dd pnl vb corr)
   <= Tool.r_risk_score (Tool.generate_risk_alerts dd' pnl' vb' corr))%Z.
Proof.
  intros Hd Hp Hv. unfold Tool.generate_risk_alerts. cbn [Tool.r_risk_score].
  unfold Tool.raw_risk_score, Tool.breach_drawdown, Tool.breach_daily_pnl,
    Tool.breach_var, Tool.zmin.
  destruct (gtb_spec dd RiskManagement.STOP_LOSS_PERCENT),
           (gtb_spec dd' RiskManagement.STOP_LOSS_PERCENT); try lra;
  destruct (ltb_spec pnl (- RiskManagement.MODERATE_DAILY_LOSS)),
           (ltb_spec pnl' (- RiskManagement.MODERATE_DAILY_LOSS)); try lra;
  destruct (Z.ltb_spec 0 vb), (Z.ltb_spec 0 vb'); try lia;
  destruct (Tool.breach_correlation corr); cbn; lia.
Qed.

Lemma risk_score_monotone_witness :
  (Tool.r_risk_score (Tool.generate_risk_alerts 0.04 (-500) 0 "high")
   <= Tool.r_risk_score (Tool.generate_risk_alerts 0.2 (-1500) 3 "high"))%Z.
Proof.
  apply risk_score_monotone; [discriminate | discriminate | lia].
Defined.

(** ** Kelly optimiser: edge, rejection and the exponentiation *)

Section KellyMoreFacts.

Variable float_pow : Q -> Q -> result Q.





End KellyMoreFacts.



(** ** AI signal tool: tolerance gate and rule-based fallback *)

Lemma generate_trading_signal_ok (a : AIAnalysis) (tolerance : string) :
  an_success a = true ->
  exists act conf reasoning,
    generate_trading_signal (Ok a) tolerance
    = mkAiResult true
        (Some (mkSignal (Some act) (Some conf) (pred_target_price a) (pred_stop_loss a)))
        (Some reasoning)
    /\ conf = Py.min 1.0 (adjusted_confidence (an_confidence a) tolerance)
    /\ (adjusted_confidence (an_confidence a) tolerance < tolerance_threshold tolerance
        -> act = "hold")
    /\ (tolerance_threshold tolerance <= adjusted_confidence (an_confidence a) tolerance
        -> act = option_default "hold" (pred_recommendation a)).
Proof.
  intro Hs. unfold generate_trading_signal. rewrite Hs. cbn [negb].
  destruct (ltb_spec (adjusted_confidence (an_confidence a) tolerance)
                     (tolerance_threshold tolerance));
    eexists _, _, _; (split; [reflexivity|]); (split; [reflexivity|]);
    split; intro; (reflexivity || lra).
Qed.

(** The confidence of a signal never exceeds 1; an action other than hold
    means the adjusted confidence reached the tolerance threshold; and under
    low tolerance any analysis confidence below 1 ends in hold. *)
Theorem signal_tolerance_gate (a : AIAnalysis) (tolerance : string) :
  an_success a = true ->
  exists sg, generate_trading_signal (Ok a) tolerance
             = mkAiResult true (Some sg) (ai_reasoning (generate_trading_signal (Ok a) tolerance))
    /\ (exists conf, sig_confidence sg = Some conf /\ conf <= 1)
    /\ (action sg <> Some "hold" ->
        tolerance_threshold tolerance <= adjusted_confidence (an_confidence a) tolerance)
    /\ (tolerance = "low" -> an_confidence a < 1 -> action sg = Some "hold").
Proof.
  intro Hs.
  destruct (generate_trading_signal_ok a tolerance Hs)
    as (act & conf & reasoning & -> & Hconf & Hlow & _).
  eexists. split; [reflexivity|]. cbn [sig_confidence action].
  split; [|split].
  - exists conf. split; [reflexivity|]. rewrite Hconf. unfold Py.min.
    destruct (ltb_spec (adjusted_confidence (an_confidence a) tolerance) 1.0); lra.
  - intro Hact.
    destruct (Qlt_le_dec (adjusted_confidence (an_confidence a) tolerance)
                         (tolerance_threshold tolerance)) as [Hlt|]; [|assumption].
    rewrite (Hlow Hlt) in Hact. contradiction.
  - intros -> Hlt. rewrite Hlow; [reflexivity|].
    change (adjusted_confidence (an_confidence a) "low") with (an_confidence a * 0.8).
    change (tolerance_threshold "low") with 0.8. lra.
Qed.

Lemma signal_tolerance_gate_witness :
  exists sg,
    ai_signal (generate_trading_signal
                 (Ok (mkAIAnalysis true 0.99 "r" (Some "buy") None None None)) "low")
    = Some sg
    /\ action sg = Some "hold".
Proof.
  edestruct (signal_tolerance_gate (mkAIAnalysis true 0.99 "r" (Some "buy") None None None)
                                   "low") as (sg & E & _ & _ & H); [reflexivity|].
  exists sg. split; [rewrite E; reflexivity|]. apply H; reflexivity.
Defined.




(** ** Decision engine: when it trades *)

Lemma rule_based_trade_inv (self : trader) (an : analysis) (act : string) (conf : Q)
    (o : option order) :
  fst (_rule_based_decision self an) = Trade act conf o ->
  (act = "buy" \/ act = "sell") /\ o = None
  /\ min_confidence self <= conf /\ 0.6 < conf /\ conf <= 0.8.
Proof.
  unfold _rule_based_decision, info, rule_based_body. cbn [fst].
  destruct (rule_scores an) as [|x xs]; [discriminate|].
  set (n := inject_Z (Z.of_nat (length (x :: xs)))).
  destruct (py_div (np.sum (x :: xs)) n) as [sc|]; [|discriminate]. cbn [bind].
  set (c := Py.min Trading.MAX_RULE_CONFIDENCE (Py.abs sc + Trading.CONFIDENCE_BOOST)).
  assert (Hc : c <= 0.8 /\ (0.3 < Qabs sc -> 0.6 < c)).
  { unfold c, Py.min, Py.abs, Trading.MAX_RULE_CONFIDENCE, Trading.CONFIDENCE_BOOST.
    destruct (ltb_spec (Qabs sc + 0.3) 0.8); split; intros; lra. }
  destruct Hc as [Hc1 Hc2].
  destruct (gtb_spec sc Trading.RULE_BASED_BUY_THRESHOLD) as [Hb|Hb];
    [destruct (geb_spec c (min_confidence self)) as [Hm|Hm]|]; cbn [andb fst].
  - intro H. assert (act = "buy" /\ conf = c /\ o = None) as (-> & -> & ->)
      by (repeat split; congruence).
    unfold Trading.RULE_BASED_BUY_THRESHOLD in Hb.
    repeat split; auto. apply Hc2. rewrite Qabs_pos; lra.
  - destruct (Py.ltb sc Trading.RULE_BASED_SELL_THRESHOLD); cbn [andb fst]; discriminate.
  - destruct (ltb_spec sc Trading.RULE_BASED_SELL_THRESHOLD) as [Hs|Hs];
      [destruct (geb_spec c (min_confidence self)) as [Hm|Hm]|]; cbn [andb fst];
      try discriminate.
    intro H. assert (act = "sell" /\ conf = c /\ o = None) as (-> & -> & ->)
      by (repeat split; congruence).
    unfold Trading.RULE_BASED_SELL_THRESHOLD in Hs.
    repeat split; auto. apply Hc2. rewrite Qabs_neg; lra.
Qed.

Section DecisionMoreFacts.

Variable call_ai : analysis -> string -> result ai_result.
Variable call_risk : Q -> Q -> Q -> Q -> result position_result.

Lemma ai_branch_trade_inv (self : trader) (an : analysis) (ai : ai_result)
    (act : string) (conf : Q) (o : option order) (log : list string) :
  ai_branch call_risk self an ai = Ok (Trade act conf o, log) ->
  (act = "buy" \/ act = "sell") /\ min_confidence self <= conf
  /\ exists sg pos size reasoning,
       ai_signal ai = Some sg
       /\ call_risk 10000.0 (risk_per_trade self)
            (option_default 0 (a_market_price an))
            (option_default 0 (a_market_price an) * (1 - risk_stop_loss_percent self))
          = Ok pos
       /\ p_success pos = true /\ p_position_size pos = Some size
       /\ o = Some (mkOrder (option_default 0 (a_market_price an)) (fst size)
                      (option_default 0 (a_market_price an)
                       * (1 - risk_stop_loss_percent self))
                      (target_price sg) reasoning (snd size)).
Proof.
  unfold ai_branch. destruct (ai_signal ai) as [sg|]; [|discriminate].
  cbn [get_key bind].
  destruct (geb_spec (option_default 0.0 (sig_confidence sg)) (min_confidence self))
    as [Hm|Hm]; cbn [andb]; [|discriminate].
  destruct (in_list (option_default "hold" (action sg)) ["buy"; "sell"]) eqn:Hact;
    [|discriminate].
  destruct (call_risk _ _ _ _) as [pos|] eqn:Ecall; [|discriminate]. cbn [bind].
  destruct (p_success pos) eqn:Hs; [|discriminate].
  destruct (p_position_size pos) as [size|] eqn:Esize; [|discriminate].
  destruct (ai_reasoning ai) as [reasoning|]; [|discriminate].
  cbn [get_key bind]. intro H.
  assert (E : act = option_default "hold" (action sg)
              /\ conf = option_default 0.0 (sig_confidence sg)
              /\ o = Some (mkOrder (option_default 0 (a_market_price an)) (fst size)
                             (option_default 0 (a_market_price an)
                              * (1 - risk_stop_loss_percent self))
                             (target_price sg) reasoning (snd size)))
    by (repeat split; congruence).
  destruct E as (-> & -> & ->).
  split.
  { unfold in_list in Hact. cbn [existsb] in Hact.
    rewrite orb_false_r, orb_true_iff, !String.eqb_eq in Hact. exact Hact. }
  split; [exact Hm|].
  exists sg, pos, size, reasoning. repeat split; assumption.
Qed.

Lemma decision_trade_cases (self : trader) (an : analysis) (act : string) (conf : Q)
    (o : option order) :
  fst (make_trading_decision call_ai call_risk self an) = Trade act conf o ->
  fst (_rule_based_decision self an) = Trade act conf o
  \/ exists ai log, ai_connected self = true /\ call_ai an (mode self) = Ok ai
       /\ ai_success ai = true
       /\ ai_branch call_risk self an ai = Ok (Trade act conf o, log).
Proof.
  unfold make_trading_decision, decision_body, info. cbn [fst].
  destruct (ai_connected self); [|auto].
  destruct (call_ai an (mode self)) as [ai|]; [|discriminate]. cbn [bind].
  destruct (ai_success ai) eqn:Hs; [|auto].
  destruct (ai_branch call_risk self an ai) as [[d log]|] eqn:E; [|discriminate].
  cbn [fst]. intros ->. right. exists ai, log. auto.
Qed.

(** Whatever the AI source and the risk tool answer, a decision to trade has
    action buy or sell and a confidence at least the configured minimum; a
    trade from the rule-based fallback carries no order and a confidence in
    (0.6, 0.8], so the fallback never trades when the minimum is above 0.8;
    a trade from the AI path carries an order whose stop loss is the entry
    price times [1 - stop_loss_percent]. *)
Theorem trade_decision_invariants (self : trader) (an : analysis) (act : string)
    (conf : Q) (o : option order) :
  fst (make_trading_decision call_ai call_risk self an) = Trade act conf o ->
  (act = "buy" \/ act = "sell")
  /\ min_confidence self <= conf
  /\ (o = None -> 0.6 < conf /\ conf <= 0.8 /\ min_confidence self <= 0.8)
  /\ (forall ord, o = Some ord ->
        ai_connected self = true
        /\ o_entry_price ord = option_default 0 (a_market_price an)
        /\ o_stop_loss ord = o_entry_price ord * (1 - risk_stop_loss_percent self)).
Proof.
  intro H. destruct (decision_trade_cases _ _ _ _ _ H)
    as [Hr | (ai & log & Hc & _ & _ & Hb)].
  - destruct (rule_based_trade_inv _ _ _ _ _ Hr) as (Hact & -> & Hm & H6 & H8).
    repeat split; try assumption; try lra. all: discriminate.
  - destruct (ai_branch_trade_inv _ _ _ _ _ _ _ Hb)
      as (Hact & Hm & sg & pos & size & reasoning & _ & _ & _ & _ & ->).
    split; [exact Hact|]. split; [exact Hm|]. split; [discriminate|].
    intros ord [= <-]. cbn [o_entry_price o_stop_loss]. repeat split. exact Hc.
Qed.

(** With no successful source and no usable technical signal the fallback
    reports that there is no valid analysis data; without an AI connection
    that is the whole decision. *)
Theorem empty_analysis_no_trade (self : trader) (an : analysis) :
  (forall t, a_technical an = Some t -> tech_success t = false) ->
  (forall n, a_news an = Some n -> sent_success n = false) ->
  (forall s, a_social an = Some s -> sent_success s = false) ->
  fst (_rule_based_decision self an) = NoTrade "No valid analysis data"
  /\ (ai_connected self = false ->
      fst (make_trading_decision call_ai call_risk self an)
      = NoTrade "No valid analysis data").
Proof.
  intros Ht Hn Hs.
  assert (E : rule_scores an = []).
  { unfold rule_scores.
    destruct (a_technical an) as [t|]; [rewrite (Ht t eq_refl)|];
      (destruct (a_news an) as [n|]; [rewrite (Hn n eq_refl)|]);
      (destruct (a_social an) as [s|]; [rewrite (Hs s eq_refl)|]); reflexivity. }
  assert (Hr : fst (_rule_based_decision self an) = NoTrade "No valid analysis data")
    by (unfold _rule_based_decision, rule_based_body; rewrite E; reflexivity).
  split; [exact Hr|].
  intro Hc. unfold make_trading_decision, decision_body. rewrite Hc. exact Hr.
Qed.

End DecisionMoreFacts.

Lemma trade_decision_invariants_witness :
  exists act conf o,
    fst (make_trading_decision
           (fun _ _ => Ok (mkAiResult true
                             (Some (mkSignal (Some "buy") (Some 0.9) (Some 52000) None))
                             (Some "strong trend")))
           risk_tool medium_trader bullish_analysis) = Trade act conf o
    /\ (act = "buy" \/ act = "sell") /\ min_confidence medium_trader <= conf.
Proof.
  match goal with |- exists act conf o, ?d = _ /\ _ =>
    assert (exists act conf o, d = Trade act conf o) as (act & conf & o & Hd)
      by (vm_compute; eauto)
  end.
  exists act, conf, o. split; [exact Hd|].
  destruct (trade_decision_invariants _ _ _ _ _ _ _ Hd) as (H1 & H2 & _). auto.
Defined.

Lemma empty_analysis_no_trade_witness :
  fst (_rule_based_decision medium_trader
         (mkAnalysis (Some (mkTechnical false (Some "bullish"))) None
                     (Some (mkSentiment false (Some 0.9))) None))
  = NoTrade "No valid analysis data".
Proof.
  apply (empty_analysis_no_trade (fun _ _ => Raise ValueError)
                                 (fun _ _ _ _ => Raise ValueError)).
  - intros t [= <-]. reflexivity.
  - discriminate.
  - intros s [= <-]. reflexivity.
Defined.

(** ** Decision engine and risk tool together *)



Section DecisionWithRiskTool.

Variable call_ai : analysis -> string -> result ai_result.


End DecisionWithRiskTool.


(** ** shared/utils.py: decimal rounding *)

Lemma ltb_compat (a a' b b' : Q) : a == a' -> b == b' -> Py.ltb a b = Py.ltb a' b'.
Proof.
  intros Ha Hb. destruct (ltb_spec a b), (ltb_spec a' b'); try reflexivity; lra.
Qed.

Lemma round_half_up_compat (q q' : Q) :
  q == q' -> Utils.round_half_up q = Utils.round_half_up q'.
Proof.
  intro H. unfold Utils.round_half_up.
  rewrite (ltb_compat q q' 0 0 H (Qeq_refl 0)).
  assert (E : Qabs q + 0.5 == Qabs q' + 0.5) by (rewrite H; reflexivity).
  rewrite (Qfloor_comp _ _ E). reflexivity.
Qed.

Lemma round_half_up_opp (q : Q) :
  Utils.round_half_up (- q) = (- Utils.round_half_up q)%Z.
Proof.
  unfold Utils.round_half_up.
  assert (E : Qabs (- q) + 0.5 == Qabs q + 0.5) by (rewrite Qabs_opp; reflexivity).
  rewrite (Qfloor_comp _ _ E).
  destruct (ltb_spec (- q) 0), (ltb_spec q 0); try lra; try lia.
  assert (Hq : q == 0) by lra.
  assert (E0 : Qabs q + 0.5 == 0.5) by (rewrite Hq; reflexivity).
  rewrite (Qfloor_comp _ _ E0). reflexivity.
Qed.

Lemma round_half_up_near (q : Q) :
  Qabs (inject_Z (Utils.round_half_up q) - q) <= 0.5.
Proof.
  unfold Utils.round_half_up.
  pose proof (Qfloor_le (Qabs q + 0.5)) as Hlo.
  pose proof (Qlt_floor (Qabs q + 0.5)) as Hhi.
  rewrite inject_Z_plus in Hhi. change (inject_Z 1) with 1 in Hhi.
  apply Qabs_Qle_condition.
  destruct (ltb_spec q 0).
  - assert (Ea : Qabs q == - q) by (apply Qabs_neg; lra).
    rewrite inject_Z_opp. set (a := Qabs q) in *. lra.
  - assert (Ea : Qabs q == q) by (apply Qabs_pos; lra).
    set (a := Qabs q) in *. lra.
Qed.

Lemma round_decimal_inv (v : Q) (n : nat) (r : Q) :
  Utils.round_decimal v n = Ok r ->
  (Z.abs (Utils.round_half_up (v * Py.pow10 n)) < 10 ^ 28)%Z
  /\ r = inject_Z (Utils.round_half_up (v * Py.pow10 n)) / Py.pow10 n.
Proof.
  unfold Utils.round_decimal.
  destruct (Z.leb_spec (10 ^ 28) (Z.abs (Utils.round_half_up (v * Py.pow10 n))));
    [discriminate|].
  intro Hr. split; [assumption | congruence].
Qed.

Lemma round_decimal_near (v : Q) (n : nat) (r : Q) :
  Utils.round_decimal v n = Ok r -> Qabs (r - v) <= 0.5 / Py.pow10 n.
Proof.
  intro H. apply round_decimal_inv in H as [Hlim ->].
  pose proof (pow10_pos n) as Hp.
  pose proof (round_half_up_near (v * Py.pow10 n)) as Hn.
  set (z := inject_Z (Utils.round_half_up (v * Py.pow10 n))) in *.
  assert (E : z / Py.pow10 n - v == (z - v * Py.pow10 n) / Py.pow10 n)
    by (field; lra).
  rewrite E. unfold Qdiv at 1. rewrite Qabs_Qmult.
  rewrite (Qabs_pos (/ Py.pow10 n)) by (apply Qlt_le_weak, Qinv_lt_0_compat, Hp).
  apply Qmult_le_compat_r; [exact Hn|].
  apply Qlt_le_weak, Qinv_lt_0_compat, Hp.
Qed.

Lemma round_decimal_opp (v : Q) (n : nat) (r : Q) :
  Utils.round_decimal v n = Ok r ->
  exists r', Utils.round_decimal (- v) n = Ok r' /\ r' == - r.
Proof.
  intro H. apply round_decimal_inv in H as [Hlim ->].
  pose proof (pow10_pos n) as Hp.
  assert (Ez : Utils.round_half_up (- v * Py.pow10 n)
               = (- Utils.round_half_up (v * Py.pow10 n))%Z).
  { rewrite <- round_half_up_opp. apply round_half_up_compat. ring. }
  unfold Utils.round_decimal. rewrite Ez, Z.abs_opp.
  destruct (Z.leb_spec (10 ^ 28) (Z.abs (Utils.round_half_up (v * Py.pow10 n))));
    [lia|].
  eexists. split; [reflexivity|]. rewrite inject_Z_opp. field. lra.
Qed.

(** [round_decimal] moves a value by at most half a unit of the last kept
    decimal and is symmetric about zero: the negated value rounds to the
    negated result, ties going away from zero on both sides. *)
Theorem round_decimal_symmetric (v : Q) (n : nat) (r : Q) :
  Utils.round_decimal v n = Ok r ->
  Qabs (r - v) <= 0.5 / Py.pow10 n
  /\ exists r', Utils.round_decimal (- v) n = Ok r' /\ r' == - r.
Proof.
  intro H. split; [apply round_decimal_near | apply round_decimal_opp]; exact H.
Qed.

Lemma round_decimal_symmetric_witness :
  exists r', Utils.round_decimal (- 0.125) 2 = Ok r' /\ r' == - 0.13.
Proof.
  destruct (round_decimal_symmetric 0.125 2 0.13) as (_ & r' & Hr & E).
  - reflexivity.
  - exists r'. split; [exact Hr | exact E].
Defined.

(** ** shared/utils.py: the utility position size and P&L *)



Lemma lower_long_short : Utils.lower "long" = "long" /\ Utils.lower "short" = "short".
Proof. split; reflexivity. Qed.

(** [calculate_pnl] raises [ZeroDivisionError] on a zero quantity with a
    positive entry price; otherwise the percentage before rounding does not
    depend on the quantity; and a short position's P&L and percentage are
    the negated long ones. *)
Theorem pnl_long_short (entry current quantity : Q) :
  (0 < entry -> quantity == 0 ->
     forall side, Utils.calculate_pnl entry current quantity side = Raise ZeroDivisionError)
  /\ (forall p pc, Utils.calculate_pnl entry current quantity "long" = Ok (p, pc) ->
        0 < entry ->
        Qabs (p - (current - entry) * quantity) <= 0.005
        /\ Qabs (pc - (current - entry) / entry * 100) <= 0.005)
  /\ (forall p pc, Utils.calculate_pnl entry current quantity "long" = Ok (p, pc) ->
        exists p' pc',
          Utils.calculate_pnl entry current quantity "short" = Ok (p', pc')
          /\ p' == - p /\ pc' == - pc).
Proof.
  split; [|split].
  - intros He Hq side. unfold Utils.calculate_pnl.
    destruct (gtb_spec entry 0); [|lra].
    unfold py_div at 1.
    assert (E : Qeq_bool (entry * quantity) 0 = true)
      by (apply Qeq_bool_iff; rewrite Hq; ring).
    rewrite E. reflexivity.
  - intros p pc H He. unfold Utils.calculate_pnl in H.
    change (Utils.lower "long" =? "long") with true in H. cbv iota in H.
    destruct (gtb_spec entry 0); [|lra].
    destruct (py_div ((current - entry) * quantity) (entry * quantity)) as [d|] eqn:Ed;
      [|discriminate].
    apply py_div_inv in Ed as [Hnz ->]. cbn [bind] in H.
    destruct (Utils.round_decimal ((current - entry) * quantity) 2) as [rp|] eqn:Ep;
      [|discriminate].
    cbn [bind] in H.
    destruct (Utils.round_decimal _ 2) as [rpc|] eqn:Epc in H; [|discriminate].
    cbn [bind] in H. assert (E : rp = p /\ rpc = pc) by (split; congruence).
    destruct E as [-> ->].
    assert (E5 : 0.5 / Py.pow10 2 == 0.005) by reflexivity.
    pose proof (round_decimal_near _ _ _ Ep) as Hp.
    pose proof (round_decimal_near _ _ _ Epc) as Hpc.
    rewrite E5 in Hp, Hpc. split; [exact Hp|].
    assert (Hq : ~ quantity == 0) by (intro Hq; apply Hnz; rewrite Hq; ring).
    assert (Epct : (current - entry) / entry * 100
                   == (current - entry) * quantity / (entry * quantity) * 100)
      by (field; split; lra).
    rewrite Epct. exact Hpc.
  - intros p pc H. unfold Utils.calculate_pnl in *.
    change (Utils.lower "long" =? "long") with true in H.
    change (Utils.lower "short" =? "long") with false. cbv iota in *.
    assert (Eneg : (entry - current) * quantity == - ((current - entry) * quantity))
      by ring.
    destruct (gtb_spec entry 0) as [He|He].
    + destruct (py_div ((current - entry) * quantity) (entry * quantity)) as [d|] eqn:Ed;
        [|discriminate].
      apply py_div_inv in Ed as [Hnz ->]. cbn [bind] in H.
      rewrite py_div_ok by exact Hnz. cbn [bind].
      destruct (Utils.round_decimal ((current - entry) * quantity) 2) as [rp|] eqn:Ep;
        [|discriminate].
      cbn [bind] in H.
      destruct (Utils.round_decimal _ 2) as [rpc|] eqn:Epc in H; [|discriminate].
      cbn [bind] in H. assert (E : rp = p /\ rpc = pc) by (split; congruence).
      destruct E as [-> ->].
      destruct (round_decimal_opp _ _ _ Ep) as (p' & Hp' & Ep').
      destruct (round_decimal_opp _ _ _ Epc) as (pc' & Hpc' & Epc').
      apply round_decimal_inv in Hp' as [Hl1 ->].
      apply round_decimal_inv in Hpc' as [Hl2 ->].
      assert (E1 : Utils.round_half_up ((entry - current) * quantity * Py.pow10 2)
                   = Utils.round_half_up (- ((current - entry) * quantity) * Py.pow10 2))
        by (apply round_half_up_compat; ring).
      assert (E2 : Utils.round_half_up
                     ((entry - current) * quantity / (entry * quantity) * 100 * Py.pow10 2)
                   = Utils.round_half_up
                       (- ((current - entry) * quantity / (entry * quantity) * 100)
                        * Py.pow10 2))
        by (apply round_half_up_compat; field;
            split; intro Hz; apply Hnz; rewrite Hz; ring).
      unfold Utils.round_decimal. rewrite E1, E2.
      destruct (Z.leb_spec (10 ^ 28)
                  (Z.abs (Utils.round_half_up
                            (- ((current - entry) * quantity) * Py.pow10 2)))); [lia|].
      cbn [bind].
      destruct (Z.leb_spec (10 ^ 28)
                  (Z.abs (Utils.round_half_up
                            (- ((current - entry) * quantity / (entry * quantity) * 100)
                             * Py.pow10 2)))); [lia|].
      cbn [bind]. eexists _, _. split; [reflexivity|]. split; assumption.
    + cbn [bind] in *.
      destruct (Utils.round_decimal ((current - entry) * quantity) 2) as [rp|] eqn:Ep;
        [|discriminate].
      cbn [bind] in H.
      destruct (Utils.round_decimal 0.0 2) as [rpc|] eqn:Epc; [|discriminate].
      cbn [bind] in H. assert (E : rp = p /\ rpc = pc) by (split; congruence).
      destruct E as [-> ->].
      destruct (round_decimal_opp _ _ _ Ep) as (p' & Hp' & Ep').
      apply round_decimal_inv in Hp' as [Hl1 ->].
      assert (E1 : Utils.round_half_up ((entry - current) * quantity * Py.pow10 2)
                   = Utils.round_half_up (- ((current - entry) * quantity) * Py.pow10 2))
        by (apply round_half_up_compat; ring).
      unfold Utils.round_decimal at 1. rewrite E1.
      destruct (Z.leb_spec (10 ^ 28)
                  (Z.abs (Utils.round_half_up
                            (- ((current - entry) * quantity) * Py.pow10 2)))); [lia|].
      cbn [bind]. eexists _, _. split; [reflexivity|]. split; [exact Ep'|].
      vm_compute in Epc. injection Epc as <-. reflexivity.
Qed.

Lemma pnl_long_short_witness :
  exists p' pc', Utils.calculate_pnl 100 110 2 "short" = Ok (p', pc')
                 /\ p' == - 20 /\ pc' == - 10.
Proof.
  destruct (pnl_long_short 100 110 2) as (_ & _ & H).
  destruct (H (2000 # 100) (1000 # 100)) as (p' & pc' & E & H1 & H2);
    [vm_compute; reflexivity|].
  exists p', pc'. split; [exact E|]. split; [rewrite H1 | rewrite H2]; reflexivity.
Defined.

(** ** shared/utils.py: histogram, cache and rate limiter *)

(** The most recent [k] elements. *)
Lemma skipn_recent (k : nat) (l : list Q) (v : Q) :
  (1 <= k)%nat ->
  skipn (length (skipn (length l - k) l ++ [v]) - k) (skipn (length l - k) l ++ [v])
  = skipn (length (l ++ [v]) - k) (l ++ [v]).
Proof.
  intro Hk. rewrite !length_app, length_skipn. cbn [length].
  destruct (Nat.le_gt_cases (length l) k) as [Hle|Hgt].
  - replace (length l - k)%nat with 0%nat by lia.
    cbn [skipn]. rewrite Nat.sub_0_r. reflexivity.
  - replace (length l - (length l - k) + 1 - k)%nat with 1%nat by lia.
    replace (length l + 1 - k)%nat with (1 + (length l - k))%nat by lia.
    rewrite !skipn_app, skipn_skipn, length_skipn.
    replace (1 - (length l - (length l - k)))%nat with 0%nat by lia.
    replace (1 + (length l - k) - length l)%nat with 0%nat by lia.
    reflexivity.
Qed.

Lemma match_nonempty (l : list Q) (x : list Q) :
  l <> [] -> match l with [] => None | _ :: _ => Some x end = Some x.
Proof. destruct l; [contradiction | reflexivity]. Qed.

Lemma record_histogram_same (h : Utils.histograms) (name : string) (v : Q) :
  Utils.record_histogram h name v name
  = Some (let l := (match h name with Some l => l | None => [] end ++ [v])%list in
          skipn (length l - Utils.MAX_HISTOGRAM_VALUES) l).
Proof.
  unfold Utils.record_histogram. rewrite String.eqb_refl. cbv zeta. f_equal.
  destruct (Nat.ltb_spec Utils.MAX_HISTOGRAM_VALUES
              (length (match h name with Some l => l | None => [] end ++ [v])));
    [reflexivity|].
  match goal with |- ?l = skipn ?n ?l => replace n with 0%nat by lia end.
  reflexivity.
Qed.

Lemma record_histogram_other (h : Utils.histograms) (name k : string) (v : Q) :
  k <> name -> Utils.record_histogram h name v k = h k.
Proof.
  intro H. unfold Utils.record_histogram.
  destruct (String.eqb_spec k name); [contradiction | reflexivity].
Qed.

(** After any sequence of recordings, the histogram of a name holds exactly
    the most recent 1000 values recorded under it, in order: never more than
    1000, and nothing recorded under another name. *)
Theorem histogram_keeps_recent (ops : list (string * Q)) (name : string) :
  let h := fold_left (fun h nv => Utils.record_histogram h (fst nv) (snd nv)) ops
                     Utils.no_histograms in
  let recorded := map snd (filter (fun nv => fst nv =? name) ops) in
  h name = match recorded with
           | [] => None
           | _ => Some (skipn (length recorded - Utils.MAX_HISTOGRAM_VALUES) recorded)
           end
  /\ (forall l, h name = Some l -> (length l <= Utils.MAX_HISTOGRAM_VALUES)%nat).
Proof.
  cbv zeta.
  assert (Hmain :
    fold_left (fun h nv => Utils.record_histogram h (fst nv) (snd nv)) ops
              Utils.no_histograms name
    = match map snd (filter (fun nv => fst nv =? name) ops) with
      | [] => None
      | _ => Some (skipn (length (map snd (filter (fun nv => fst nv =? name) ops))
                          - Utils.MAX_HISTOGRAM_VALUES)
                         (map snd (filter (fun nv => fst nv =? name) ops)))
      end).
  { induction ops as [|[n v] ops IH] using rev_ind; [reflexivity|].
    rewrite fold_left_app, filter_app, map_app. cbn [fold_left filter fst snd].
    destruct (String.eqb_spec n name) as [->|Hne].
    - rewrite record_histogram_same, IH. cbn [map]. cbv zeta.
      set (rec := map snd (filter (fun nv => fst nv =? name) ops)).
      rewrite (match_nonempty (rec ++ [v])) by (destruct rec; discriminate).
      f_equal. destruct rec as [|r rs] eqn:Er.
      + reflexivity.
      + rewrite <- Er. apply skipn_recent. unfold Utils.MAX_HISTOGRAM_VALUES. lia.
    - rewrite record_histogram_other by congruence.
      cbn [map]. rewrite app_nil_r. exact IH. }
  split; [exact Hmain|].
  intros l Hl. rewrite Hmain in Hl.
  set (rec := map snd (filter (fun nv => fst nv =? name) ops)) in *.
  assert (El : l = skipn (length rec - Utils.MAX_HISTOGRAM_VALUES) rec)
    by (destruct rec; [discriminate | congruence]).
  rewrite El, length_skipn. lia.
Qed.

Lemma histogram_keeps_recent_witness :
  (length [1; 3] <= Utils.MAX_HISTOGRAM_VALUES)%nat.
Proof.
  apply (proj2 (histogram_keeps_recent
                  [("latency", 1); ("errors", 2); ("latency", 3)] "latency")
               [1; 3]).
  reflexivity.
Defined.

Section CacheFacts.

Variable V : Type.

(** A value set with a TTL is returned until the clock passes its expiry
    (inclusive), then the first [get] drops it and it stays gone; other keys
    are untouched and a deleted key is absent. *)
Theorem cache_round_trip (c : Utils.cache V) (key : string) (value : V)
    (ttl t0 t : Q) :
  let c1 := Utils.cache_set V t0 c key value ttl in
  (t <= t0 + ttl -> Utils.cache_get V t c1 key = (Some value, c1))
  /\ (t0 + ttl < t ->
      fst (Utils.cache_get V t c1 key) = None
      /\ forall t', fst (Utils.cache_get V t' (snd (Utils.cache_get V t c1 key)) key)
                    = None)
  /\ (forall k t', k <> key ->
        fst (Utils.cache_get V t' c1 k) = fst (Utils.cache_get V t' c k))
  /\ (forall t', fst (Utils.cache_get V t' (Utils.cache_delete V c1 key) key) = None).
Proof.
  cbv zeta. unfold Utils.cache_get, Utils.cache_set, Utils.cache_delete.
  rewrite !String.eqb_refl. cbn [Utils.expires_at Utils.item_value].
  split; [|split; [|split]].
  - intro H. destruct (gtb_spec t (t0 + ttl)); [lra | reflexivity].
  - intro H. destruct (gtb_spec t (t0 + ttl)); [|lra]. cbn [fst snd].
    rewrite String.eqb_refl. split; reflexivity.
  - intros k t' Hk. destruct (String.eqb_spec k key); [contradiction|].
    destruct (c k) as [cached|]; [destruct (Py.gtb _ _)|]; reflexivity.
  - reflexivity.
Qed.

End CacheFacts.

Lemma cache_round_trip_witness :
  Utils.cache_get string 360
    (Utils.cache_set string 100 (fun _ => None) "price:BTCUSDT" "50000" Utils.DEFAULT_TTL)
    "price:BTCUSDT"
  = (Some "50000",
     Utils.cache_set string 100 (fun _ => None) "price:BTCUSDT" "50000" Utils.DEFAULT_TTL).
Proof.
  apply (cache_round_trip string (fun _ => None) "price:BTCUSDT" "50000"
                          Utils.DEFAULT_TTL 100 360).
  discriminate.
Defined.

Lemma acquire_kept_within (r : Utils.rate_limiter) (now : Q) :
  Forall (fun call_time => now - call_time < Utils.window_seconds r)
         (filter (fun call_time => Py.ltb (now - call_time) (Utils.window_seconds r))
                 (Utils.calls r)).
Proof.
  apply Forall_forall. intros x Hx. apply filter_In in Hx as [_ Hx].
  destruct (ltb_spec (now - x) (Utils.window_seconds r)); [assumption | discriminate].
Qed.

(** One attempt of the rate limiter: a grant records the call and leaves at
    most [max_calls] calls, all inside the window; a refusal asks for a
    positive sleep and records nothing; calls that left the window are
    forgotten either way; and only a limiter with [max_calls = 0] fails, on
    its empty list. *)
Theorem rate_limiter_attempt (r : Utils.rate_limiter) (now : Q) :
  let kept := filter (fun call_time => Py.ltb (now - call_time) (Utils.window_seconds r))
                     (Utils.calls r) in
  match Utils.acquire r now with
  | Utils.Granted r' =>
      Utils.calls r' = (kept ++ [now])%list
      /\ (length (Utils.calls r') <= Utils.max_calls r)%nat
      /\ (0 < Utils.window_seconds r ->
          Forall (fun call_time => now - call_time < Utils.window_seconds r)
                 (Utils.calls r'))
  | Utils.Sleep seconds r' =>
      Utils.calls r' = kept
      /\ (Utils.max_calls r <= length kept)%nat
      /\ 0 < seconds
      /\ (Forall (fun call_time => call_time <= now) (Utils.calls r) ->
          seconds <= Utils.window_seconds r)
  | Utils.IndexError r' => Utils.max_calls r = 0%nat /\ Utils.calls r' = []
  end.
Proof.
  cbv zeta. unfold Utils.acquire. pose proof (acquire_kept_within r now) as Hin.
  set (kept := filter (fun call_time => Py.ltb (now - call_time) (Utils.window_seconds r))
                      (Utils.calls r)) in *.
  assert (Hsub : forall x, In x kept -> In x (Utils.calls r))
    by (intros x Hx; apply filter_In in Hx; tauto).
  destruct (Nat.leb_spec (Utils.max_calls r) (length kept)) as [Hfull|Hroom].
  - destruct kept as [|first rest] eqn:Ek.
    + cbn [length] in Hfull. split; [lia | reflexivity].
    + inversion Hin as [|? ? Hfirst _]; subst.
      destruct (gtb_spec (Utils.window_seconds r - (now - first)) 0) as [Hs|Hs]; [|lra].
      cbn [Utils.calls]. split; [reflexivity|]. split; [exact Hfull|].
      split; [exact Hs|]. intro Hpast. rewrite Forall_forall in Hpast.
      specialize (Hpast first (Hsub first (or_introl eq_refl))). lra.
  - cbn [Utils.calls]. split; [reflexivity|].
    split; [rewrite length_app; cbn [length]; lia|].
    intro Hw. apply Forall_app. split; [exact Hin|].
    constructor; [lra | constructor].
Qed.

Lemma rate_limiter_attempt_witness :
  exists seconds r',
    Utils.acquire (Utils.mkRateLimiter 2 Utils.SECONDS_PER_MINUTE [5; 30; 50]) 70
    = Utils.Sleep seconds r'
    /\ Utils.calls r' = [30; 50] /\ seconds <= Utils.SECONDS_PER_MINUTE.
Proof.
  pose proof (rate_limiter_attempt
                (Utils.mkRateLimiter 2 Utils.SECONDS_PER_MINUTE [5; 30; 50]) 70) as H.
  cbv zeta in H.
  destruct (Utils.acquire (Utils.mkRateLimiter 2 Utils.SECONDS_PER_MINUTE [5; 30; 50]) 70)
    as [r'|seconds r'|r'] eqn:E; try (vm_compute in E; discriminate).
  destruct H as (Hc & _ & _ & Hle).
  exists seconds, r'. split; [reflexivity|]. split; [exact Hc|].
  apply Hle. repeat constructor; discriminate.
Defined.

(** ** Portfolio VaR: the variance under constant correlation *)

Lemma fold_Qplus_shift (l : list Q) (a : Q) :
  fold_left Qplus l a == a + fold_left Qplus l 0.
Proof.
  revert a. induction l as [|x l IH]; intro a; cbn [fold_left]; [ring|].
  rewrite (IH (a + x)), (IH (0 + x)). ring.
Qed.

Lemma sum_cons (x : Q) (l : list Q) : np.sum (x :: l) == x + np.sum l.
Proof.
  unfold np.sum. cbn [fold_left]. rewrite fold_Qplus_shift. ring.
Qed.

Lemma sum_nil : np.sum [] == 0.
Proof. reflexivity. Qed.

Lemma multiply_rows (f : Q -> list Q) (g : nat -> list Q) (v : Q) (n s : nat) :
  npm.multiply (map f (repeat v n)) (map g (seq s n))
  = map (fun i => np.zip_with Qmult (f v) (g i)) (seq s n).
Proof.
  revert s. induction n as [|n IH]; intro s; [reflexivity|].
  cbn [repeat seq map npm.multiply]. now rewrite IH.
Qed.

(** One row of the covariance matrix against the weights. *)
Lemma covariance_row_dot (i : nat) (u : list Q) :
  forall s,
    npm.dot (np.zip_with Qmult
               (map (fun y => CRYPTO_VOLATILITY_ASSUMPTION * y)
                    (repeat CRYPTO_VOLATILITY_ASSUMPTION (length u)))
               (map (fun j => if (i =? j)%nat then 1.0
                              else ASSET_CORRELATION_ASSUMPTION)
                    (seq s (length u))))
            u
    == 0.5625 * (0.6 * np.sum u
                 + 0.4 * (if (s <=? i)%nat then nth (i - s) u 0 else 0)).
Proof.
  unfold npm.dot, CRYPTO_VOLATILITY_ASSUMPTION, ASSET_CORRELATION_ASSUMPTION.
  induction u as [|x u IH]; intro s.
  - cbn [length repeat seq map np.zip_with]. rewrite sum_nil.
    destruct (s <=? i)%nat; [destruct (i - s)%nat|]; cbn [nth]; ring.
  - cbn [length repeat seq map np.zip_with]. rewrite !sum_cons, (IH (S s)).
    destruct (Nat.eqb_spec i s) as [->|Hne].
    + rewrite Nat.leb_refl, Nat.sub_diag. cbn [nth].
      destruct (Nat.leb_spec (S s) s); [lia|]. ring.
    + destruct (Nat.leb_spec s i) as [Hle|Hgt].
      * destruct (Nat.leb_spec (S s) i); [|lia].
        replace (i - s)%nat with (S (i - S s)) by lia. cbn [nth]. ring.
      * destruct (Nat.leb_spec (S s) i); [lia|]. ring.
Qed.

Lemma weighted_rows_sum (w : list Q) (D : nat -> Q) (Sw : Q) (u : list Q) :
  (forall i, D i == 0.5625 * (0.6 * Sw + 0.4 * nth i w 0)) ->
  forall s, (forall k, nth (s + k) w 0 = nth k u 0) ->
    npm.dot u (map D (seq s (length u)))
    == 0.5625 * (0.6 * Sw * np.sum u + 0.4 * np.sum (map (fun x => x * x) u)).
Proof.
  intro HD. unfold npm.dot. induction u as [|x u IH]; intros s Hsuf.
  - cbn [length seq map np.zip_with]. rewrite !sum_nil. ring.
  - cbn [length seq map np.zip_with]. rewrite !sum_cons, (IH (S s)).
    + rewrite HD. specialize (Hsuf 0%nat). rewrite Nat.add_0_r in Hsuf.
      rewrite Hsuf. cbn [nth]. ring.
    + intro k. specialize (Hsuf (S k)).
      rewrite Nat.add_succ_r in Hsuf. exact Hsuf.
Qed.

Lemma variance_formula (w : list Q) :
  npm.dot w
    (npm.dot_matrix
       (npm.multiply
          (npm.outer (repeat CRYPTO_VOLATILITY_ASSUMPTION (length w))
                     (repeat CRYPTO_VOLATILITY_ASSUMPTION (length w)))
          (npm.full_diagonal (length w) ASSET_CORRELATION_ASSUMPTION 1.0))
       w)
  == 0.5625 * (0.6 * np.sum w * np.sum w + 0.4 * np.sum (map (fun x => x * x) w)).
Proof.
  unfold npm.outer, npm.full_diagonal, npm.dot_matrix.
  rewrite multiply_rows, map_map.
  apply (weighted_rows_sum w _ (np.sum w) w).
  - intro i. rewrite (covariance_row_dot i w 0). cbn [Nat.leb].
    rewrite Nat.sub_0_r. reflexivity.
  - intro k. reflexivity.
Qed.

Lemma sum_map_div (l : list Q) (t : Q) :
  np.sum (map (fun x => x / t) l) == np.sum l / t.
Proof.
  induction l as [|x l IH];
    [cbn [map]; unfold np.sum; cbn [fold_left]; unfold Qdiv; ring|].
  cbn [map]. rewrite !sum_cons, IH. unfold Qdiv. ring.
Qed.

Lemma sum_squares_nonneg (l : list Q) : 0 <= np.sum (map (fun x => x * x) l).
Proof.
  induction l as [|x l IH]; [cbn [map]; rewrite sum_nil; lra|].
  cbn [map]. rewrite sum_cons.
  assert (0 <= x * x) by (destruct (Qlt_le_dec x 0);
    [setoid_replace (x * x) with ((- x) * (- x)) by ring|];
    apply Qmult_le_0_compat; lra).
  lra.
Qed.

Lemma sum_squares_le_square (l : list Q) :
  Forall (fun x => 0 <= x) l ->
  0 <= np.sum l /\ np.sum (map (fun x => x * x) l) <= np.sum l * np.sum l.
Proof.
  induction 1 as [|x l Hx Hl [IH0 IH]]; [cbn [map]; rewrite !sum_nil; split; lra|].
  cbn [map]. rewrite !sum_cons. split; [lra|].
  assert (Hx2 : 0 <= x * np.sum l) by (apply Qmult_le_0_compat; assumption).
  assert (E : (x + np.sum l) * (x + np.sum l)
              == x * x + 2 * (x * np.sum l) + np.sum l * np.sum l) by ring.
  rewrite E. lra.
Qed.

Section PortfolioVarFacts.

Variable np_sqrt : Q -> Q.
Variable norm_ppf : Q -> Q.

(** VaR is 0.0 for an empty portfolio or a non-positive total value.
    Otherwise the weights sum to 1 and the variance under the square root is
    [0.75^2 * (0.6 + 0.4 * sum of squared weights)]: it depends on the
    positions only through their concentration, is at least 0.3375 and, with
    no negative market value, at most 0.5625. *)
Theorem portfolio_var_variance (positions : list PortfolioPosition) (cl h : Q) :
  let total := np.sum (map market_value positions) in
  let w := portfolio_weights positions in
  (positions = [] \/ total <= 0 ->
     calculate_portfolio_var np_sqrt norm_ppf positions cl h = Ok 0.0)
  /\ (0 < total ->
      calculate_portfolio_var np_sqrt norm_ppf positions cl h
      = Ok (total * (np_sqrt (portfolio_variance positions) * np_sqrt (h / 365))
            * norm_ppf (1 - cl))
      /\ np.sum w == 1
      /\ portfolio_variance positions
         == 0.5625 * (0.6 + 0.4 * np.sum (map (fun x => x * x) w))
      /\ 0.3375 <= portfolio_variance positions
      /\ (Forall (fun p => 0 <= market_value p) positions ->
          portfolio_variance positions <= 0.5625)).
Proof.
  cbv zeta. split.
  - intros [-> | Hle]; [reflexivity|].
    unfold calculate_portfolio_var. destruct positions as [|p ps]; [reflexivity|].
    destruct (leb_spec (np.sum (map market_value (p :: ps))) 0); [reflexivity | lra].
  - intro Hpos.
    assert (Hsum : np.sum (portfolio_weights positions) == 1).
    { unfold portfolio_weights.
      rewrite <- (map_map market_value
                    (fun x => x / np.sum (map market_value positions))).
      rewrite sum_map_div. field. lra. }
    assert (Hvar : portfolio_variance positions
                   == 0.5625 * (0.6 + 0.4 * np.sum (map (fun x => x * x)
                                                      (portfolio_weights positions)))).
    { unfold portfolio_variance. cbv zeta.
      assert (Elen : length positions = length (portfolio_weights positions))
        by (unfold portfolio_weights; now rewrite length_map).
      rewrite Elen, variance_formula, Hsum. ring. }
    split.
    { unfold calculate_portfolio_var. destruct positions as [|p ps].
      - exfalso. revert Hpos. cbn [map]. rewrite sum_nil. lra.
      - destruct (leb_spec (np.sum (map market_value (p :: ps))) 0); [lra|].
        rewrite py_div_ok by discriminate. reflexivity. }
    split; [exact Hsum|]. split; [exact Hvar|].
    pose proof (sum_squares_nonneg (portfolio_weights positions)) as Hsq.
    split; [rewrite Hvar; lra|].
    intro Hall.
    assert (Hw : Forall (fun x => 0 <= x) (portfolio_weights positions)).
    { unfold portfolio_weights. apply Forall_map.
      eapply Forall_impl; [|exact Hall]. cbv beta. intros p Hp.
      apply Qle_shift_div_l; lra. }
    destruct (sum_squares_le_square _ Hw) as [_ Hle].
    rewrite Hsum in Hle. rewrite Hvar. lra.
Qed.

End PortfolioVarFacts.

Lemma portfolio_var_variance_witness :
  portfolio_variance
    [mkPortfolioPosition "BTCUSDT" 1 1 1 3000 0 0 0.75;
     mkPortfolioPosition "ETHUSDT" 1 1 1 1000 0 0 0.25] <= 0.5625.
Proof.
  apply (portfolio_var_variance (fun x => x) (fun x => x)
           [mkPortfolioPosition "BTCUSDT" 1 1 1 3000 0 0 0.75;
            mkPortfolioPosition "ETHUSDT" 1 1 1 1000 0 0 0.25] 0.05 1).
  - reflexivity.
  - repeat constructor; discriminate.
Defined.

(** A zero old value gives 0.0 instead of a division error; otherwise the
    call returns and applying the returned percentage to the old value gives
    the new value back. *)
Theorem percentage_change_round_trip (old_value new_value : Q) :
  (old_value == 0 -> Utils.percentage_change old_value new_value = Ok 0.0)
  /\ (~ old_value == 0 ->
      exists pc, Utils.percentage_change old_value new_value = Ok pc
                 /\ old_value + old_value * pc / 100 == new_value).
Proof.
  unfold Utils.percentage_change. split; intro H.
  - apply Qeq_bool_iff in H. rewrite H. reflexivity.
  - destruct (Qeq_bool old_value 0) eqn:E; [apply Qeq_bool_iff in E; contradiction|].
    rewrite py_div_ok by exact H. cbn [bind].
    eexists. split; [reflexivity|]. field. exact H.
Qed.

Lemma percentage_change_round_trip_witness :
  exists pc, Utils.percentage_change 48000 50000 = Ok pc
             /\ 48000 + 48000 * pc / 100 == 50000.
Proof.
  apply (percentage_change_round_trip 48000 50000). discriminate.
Defined.
